(** * VL01 → Suntech translation core

    A shallow embedding of [app/src/protocols/vl01/mapper.py] and
    [app/src/suntech/utils.py]: the binary VL01 location decoder, the alarm
    and heartbeat handlers, the alarm code table and the Suntech packet
    builders, together with the properties the specification states about
    them. *)

From Stdlib Require Import ZArith QArith Qabs Lia.
From Stdlib Require Import Strings.Ascii Strings.String Strings.Byte Lists.List.
From stdpp Require Import base option list strings gmap pretty.
Import ListNotations.

Local Open Scope string_scope.
Local Open Scope Z_scope.
Local Open Scope list_scope.

(** ** Python values used by the code *)

(** [bytes]: a sequence of 8-bit values. *)
Abbreviation bytes := (list byte).

Definition byte_val (b : byte) : Z := Z.of_N (Byte.to_N b).

(** The exceptions the modelled code can raise. [struct.error],
    [ValueError], [IndexError], ... are all subclasses of [Exception]. *)
Inductive exn :=
| StructError | ValueError | IndexError | KeyError
| AttributeError | TypeError | UnicodeEncodeError.

Inductive result (A : Type) :=
| Ok (a : A)
| Raise (e : exn).
Arguments Ok {A} a.
Arguments Raise {A} e.

Definition rbind {A B} (r : result A) (k : A → result B) : result B :=
  match r with Ok a => k a | Raise e => Raise e end.

(** [body[i]] for a non-negative index. *)
Definition index (body : bytes) (i : nat) : result Z :=
  match body !! i with
  | Some b => Ok (byte_val b)
  | None => Raise IndexError
  end.

(** [body[a:b]] for non-negative bounds: out-of-range bounds are clamped,
    never an error. *)
Definition slice (a b : nat) (body : bytes) : bytes := take (b - a) (drop a body).

(** Big-endian value of a byte string. *)
Definition be_uint (bs : bytes) : Z :=
  fold_left (λ acc b, acc * 256 + byte_val b) bs 0.

(** [struct.unpack(">H", bs)[0]], [struct.unpack(">I", bs)[0]]: the buffer
    must have exactly the size of the format. *)
Definition unpack_uint (size : nat) (bs : bytes) : result Z :=
  if decide (length bs = size) then Ok (be_uint bs) else Raise StructError.

Definition unpack_H : bytes → result Z := unpack_uint 2.
Definition unpack_I : bytes → result Z := unpack_uint 4.

(** [struct.unpack(">II", bs)]. *)
Definition unpack_II (bs : bytes) : result (Z * Z) :=
  if decide (length bs = 8%nat)
  then Ok (be_uint (take 4 bs), be_uint (drop 4 bs))
  else Raise StructError.

(** [struct.unpack(">BBBBBB", bs)]. *)
Definition unpack_BBBBBB (bs : bytes) : result (Z * Z * Z * Z * Z * Z) :=
  match bs with
  | [b0; b1; b2; b3; b4; b5] =>
      Ok (byte_val b0, byte_val b1, byte_val b2, byte_val b3, byte_val b4, byte_val b5)
  | _ => Raise StructError
  end.

(** *** [datetime] *)

Record datetime := mk_datetime {
  dt_year : Z; dt_month : Z; dt_day : Z;
  dt_hour : Z; dt_minute : Z; dt_second : Z;
  dt_microsecond : Z
}.

Definition is_leap (y : Z) : bool :=
  (y mod 4 =? 0) && (negb (y mod 100 =? 0) || (y mod 400 =? 0)).

Definition days_in_month (y m : Z) : Z :=
  if m =? 2 then (if is_leap y then 29 else 28)
  else if (m =? 4) || (m =? 6) || (m =? 9) || (m =? 11) then 30
  else 31.

(** The range checks of the [datetime] constructor. *)
Definition valid_date (y m d : Z) : bool :=
  (1 <=? y) && (y <=? 9999) && (1 <=? m) && (m <=? 12) &&
  (1 <=? d) && (d <=? days_in_month y m).

Definition valid_time (h mi s : Z) : bool :=
  (0 <=? h) && (h <=? 23) && (0 <=? mi) && (mi <=? 59) && (0 <=? s) && (s <=? 59).

(** [datetime(y, m, d, h, mi, s)]; [.replace(tzinfo=timezone.utc)] leaves
    the fields as they are. *)
Definition datetime_new (y m d h mi s : Z) : result datetime :=
  if valid_date y m d && valid_time h mi s
  then Ok (mk_datetime y m d h mi s 0)
  else Raise ValueError.

(** Days before the first of month [m] in year [y], and the proleptic
    Gregorian ordinal of a date (1 for 0001-01-01), as [datetime] orders
    instants of one time zone. *)
Definition days_before_month (y m : Z) : Z :=
  fold_left (λ acc k, acc + days_in_month y (Z.of_nat k)) (seq 1 (Z.to_nat (m - 1))) 0.

Definition days_before_year (y : Z) : Z :=
  let p := y - 1 in p * 365 + p / 4 - p / 100 + p / 400.

Definition to_ordinal (d : datetime) : Z :=
  days_before_year (dt_year d) + days_before_month (dt_year d) (dt_month d) + dt_day d.

Definition to_microseconds (d : datetime) : Z :=
  (((to_ordinal d * 24 + dt_hour d) * 60 + dt_minute d) * 60 + dt_second d) * 1000000
  + dt_microsecond d.

(** [a > b - timedelta(minutes=minutes)] on two UTC instants. *)
Definition later_than_minus_minutes (a b : datetime) (minutes : Z) : bool :=
  to_microseconds b - minutes * 60 * 1000000 <? to_microseconds a.

(** *** Decimal text *)

(** [f"{n:0{width}d}"] for a non-negative [n]. *)
Definition zero_pad (width : nat) (n : Z) : string :=
  let s := pretty n in
  string_of_list_ascii (replicate (width - String.length s) "0"%char) +:+ s.

(** [strftime] with the formats the builders use. CPython hands the format
    to the C library, whose [%Y] is the year in decimal with no padding:
    year 999 prints as "999", where [%m], [%d], [%H], [%M] and [%S] are
    padded to two digits. *)
Definition strftime_Ymd (d : datetime) : string :=
  pretty (dt_year d) +:+ zero_pad 2 (dt_month d) +:+ zero_pad 2 (dt_day d).
Definition strftime_HMS (d : datetime) : string :=
  zero_pad 2 (dt_hour d) +:+ ":" +:+ zero_pad 2 (dt_minute d) +:+ ":" +:+ zero_pad 2 (dt_second d).
Definition strftime_Y (d : datetime) : string := pretty (dt_year d).
Definition strftime_m (d : datetime) : string := zero_pad 2 (dt_month d).
Definition strftime_d (d : datetime) : string := zero_pad 2 (dt_day d).

(** *** [float]

    The floats of this code are quotients of a 32-bit integer by 1800000
    and small integers. A float is modelled by its sign and its magnitude
    as an exact rational: absolute value and negation are exact on floats,
    and a quotient [n / 1800000] never lies within a rounding error of a
    six-decimal rounding boundary, so the decimal text below is the one
    Python prints. The sign is kept apart because [-abs(0.0)] is the
    negative zero, which prints with its sign and still satisfies [>= 0]. *)
Record pyfloat := mk_float { fneg : bool; fmag : Q }.

Definition float_div (n : Z) (d : positive) : pyfloat :=
  mk_float (n <? 0) (Qmake (Z.abs n) d).
Definition float_of_Z (n : Z) : pyfloat := float_div n 1.
Definition float_abs (f : pyfloat) : pyfloat := mk_float false (fmag f).
Definition float_opp (f : pyfloat) : pyfloat := mk_float (negb (fneg f)) (fmag f).

(** [f >= 0]. *)
Definition float_ge0 (f : pyfloat) : bool := negb (fneg f) || (Qnum (fmag f) =? 0).

(** Round a non-negative rational to the nearest integer, ties to even. *)
Definition round_half_even (q : Q) : Z :=
  let n := Qnum q in
  let d := Zpos (Qden q) in
  let k := n / d in
  let r := n mod d in
  if 2 * r <? d then k
  else if d <? 2 * r then k + 1
  else if Z.even k then k else k + 1.

(** [f"{f:.{prec}f}"]. *)
Definition format_f (prec : nat) (f : pyfloat) : string :=
  let scale := 10 ^ Z.of_nat prec in
  let n := round_half_even (Qmult (fmag f) (inject_Z scale)) in
  (if fneg f then "-" else "") +:+ pretty (n / scale)
  +:+ (if decide (prec = 0%nat) then "" else "." +:+ zero_pad prec (n mod scale)).


(** *** [str]

    Text is modelled by [string]; a character stands for the code point of
    the same number (U+0000 to U+00FF). On that range [str.isdigit] holds
    for the ASCII digits and for the superscript digits U+00B2, U+00B3 and
    U+00B9. *)
Definition isdigit (c : ascii) : bool :=
  let n := nat_of_ascii c in
  ((48 <=? n) && (n <=? 57) || (n =? 178) || (n =? 179) || (n =? 185))%nat.

Definition is_ascii (c : ascii) : bool := (nat_of_ascii c <? 128)%nat.

(** [''.join(filter(pred, s))]. *)
Definition filter_chars (pred : ascii → bool) (s : string) : string :=
  string_of_list_ascii (List.filter pred (list_ascii_of_string s)).

(** [s[start:]] for any integer [start]: a negative start counts from the
    end, and both are clamped to the string. *)
Definition slice_from (start : Z) (s : string) : string :=
  let n := Z.of_nat (String.length s) in
  let i := if start <? 0 then Z.max (n + start) 0 else Z.min start n in
  string_of_list_ascii (drop (Z.to_nat i) (list_ascii_of_string s)).

(** [s.encode("ascii")]: the bytes are the characters, and a character
    outside ASCII is an error. *)
Definition encode_ascii (s : string) : result string :=
  if forallb is_ascii (list_ascii_of_string s) then Ok s else Raise UnicodeEncodeError.

(** Truth value of a string. *)
Definition str_truthy (s : string) : bool :=
  match s with EmptyString => false | _ => true end.

(** [sep.join(fields)]. *)
Definition join (sep : string) (fields : list string) : string := String.concat sep fields.

(** ** The location record

    [decode_location_packet] fills a dict with a fixed set of keys, and the
    handlers cache that dict and merge two of them. The dict is modelled by
    a record with one optional field per key: [None] is an absent key. The
    timestamp is a [datetime] in a decoded record and its ISO text in the
    cached JSON copy. *)
Inductive timestamp_val :=
| TDateTime (d : datetime)
| TString (s : string).

Record location_data := mk_location {
  timestamp : option timestamp_val;
  satellites : option Z;
  speed_kmh : option Z;
  latitude : option pyfloat;
  longitude : option pyfloat;
  direction : option Z;
  status_bits : option Z;
  is_realtime : option bool;
  gps_odometer : option Z
}.

(** [{}]. *)
Definition empty_dict : location_data :=
  mk_location None None None None None None None None None.

(** [not d]: a dict is false when it has no key. *)
Definition dict_is_empty (d : location_data) : bool :=
  match d with
  | mk_location None None None None None None None None None => true
  | _ => false
  end.

(** [{**a, **b}]: the keys of both, [b] winning where both have one. *)
Definition dict_merge (a b : location_data) : location_data :=
  let pick {A} (f : location_data → option A) :=
    match f b with Some v => Some v | None => f a end in
  mk_location (pick timestamp) (pick satellites) (pick speed_kmh)
    (pick latitude) (pick longitude) (pick direction)
    (pick status_bits) (pick is_realtime) (pick gps_odometer).

(** [data[key] = v], one per key. *)
Definition set_timestamp v (d : location_data) :=
  mk_location (Some v) (satellites d) (speed_kmh d) (latitude d) (longitude d)
    (direction d) (status_bits d) (is_realtime d) (gps_odometer d).
Definition set_satellites v (d : location_data) :=
  mk_location (timestamp d) (Some v) (speed_kmh d) (latitude d) (longitude d)
    (direction d) (status_bits d) (is_realtime d) (gps_odometer d).
Definition set_speed_kmh v (d : location_data) :=
  mk_location (timestamp d) (satellites d) (Some v) (latitude d) (longitude d)
    (direction d) (status_bits d) (is_realtime d) (gps_odometer d).
Definition set_latitude v (d : location_data) :=
  mk_location (timestamp d) (satellites d) (speed_kmh d) (Some v) (longitude d)
    (direction d) (status_bits d) (is_realtime d) (gps_odometer d).
Definition set_longitude v (d : location_data) :=
  mk_location (timestamp d) (satellites d) (speed_kmh d) (latitude d) (Some v)
    (direction d) (status_bits d) (is_realtime d) (gps_odometer d).
Definition set_direction v (d : location_data) :=
  mk_location (timestamp d) (satellites d) (speed_kmh d) (latitude d) (longitude d)
    (Some v) (status_bits d) (is_realtime d) (gps_odometer d).
Definition set_status_bits v (d : location_data) :=
  mk_location (timestamp d) (satellites d) (speed_kmh d) (latitude d) (longitude d)
    (direction d) (Some v) (is_realtime d) (gps_odometer d).
Definition set_is_realtime v (d : location_data) :=
  mk_location (timestamp d) (satellites d) (speed_kmh d) (latitude d) (longitude d)
    (direction d) (status_bits d) (Some v) (gps_odometer d).
Definition set_gps_odometer v (d : location_data) :=
  mk_location (timestamp d) (satellites d) (speed_kmh d) (latitude d) (longitude d)
    (direction d) (status_bits d) (is_realtime d) (Some v).

(** ** Errors and local state

    [result] is the monad of a computation that may raise. Inside
    [decode_location_packet] the dict [data] is a local variable that the
    statements update one key at a time: [D] threads it through, and keeps
    it when an exception is raised, which is what the inner
    [try: ... except: pass] relies on. *)
Global Instance result_ret : MRet result := λ A a, Ok a.
Global Instance result_bind : MBind result := λ A B k r, rbind r k.

Definition D (A : Type) : Type := location_data → location_data * result A.

Global Instance D_ret : MRet D := λ A a data, (data, Ok a).
Global Instance D_bind : MBind D := λ A B k m data,
  match m data with
  | (data', Ok a) => k a data'
  | (data', Raise e) => (data', Raise e)
  end.

Definition lift {A} (r : result A) : D A := λ data, (data, r).
Definition assign (f : location_data → location_data) : D unit := λ data, (f data, Ok tt).
Definition get_data : D location_data := λ data, (data, Ok data).

(** [try: m except: pass]: what [m] stored before it raised stays. *)
Definition try_pass (m : D unit) : D unit := λ data, ((m data).1, Ok tt).

(** Truth value of an [int]. *)
Definition int_truthy (z : Z) : bool := negb (z =? 0).

(** ** [decode_location_packet] (mapper.py) *)

(** The inner [try] block: MCC, ACC status, realtime flag and odometer. *)
Definition decode_trailing (body : bytes) (gps_fixed : Z) : D unit :=
  mcc ← lift (unpack_H (slice 18 20 body));
  let mnc_length := if int_truthy (Z.land (Z.shiftr mcc 15) 1) then 2%nat else 1%nat in
  let acc_at := (20 + mnc_length + 4 + 8)%nat in
  acc_status ← lift (index body acc_at);
  let status_bits := 0 in
  let status_bits := if gps_fixed =? 1 then Z.lor status_bits 2 else status_bits in
  let status_bits := if acc_status =? 1 then Z.lor status_bits 1 else status_bits in
  assign (set_status_bits status_bits);;
  realtime_byte ← lift (index body (acc_at + 2));
  let is_realtime := realtime_byte =? 0 in
  assign (set_is_realtime is_realtime);;
  let mileage_at := (acc_at + 3)%nat in
  mileage_km ← lift (unpack_I (slice mileage_at (mileage_at + 4) body));
  assign (set_gps_odometer mileage_km).

(** The body of the outer [try] block, run on [data = {}]. *)
Definition decode_fields (body : bytes) : D location_data :=
  '(year, month, day, hour, minute, second) ← lift (unpack_BBBBBB (slice 0 6 body));
  ts ← lift (datetime_new (2000 + year) month day hour minute second);
  assign (set_timestamp (TDateTime ts));;
  sats_byte ← lift (index body 6);
  assign (set_satellites (Z.land sats_byte 0x0F));;
  '(lat_raw, lon_raw) ← lift (unpack_II (slice 7 15 body));
  let lat := float_div lat_raw 1800000 in
  let lon := float_div lon_raw 1800000 in
  speed ← lift (index body 15);
  assign (set_speed_kmh speed);;
  course_status ← lift (unpack_H (slice 16 18 body));
  let is_latitude_north := Z.land (Z.shiftr course_status 10) 1 in
  let is_longitude_west := Z.land (Z.shiftr course_status 11) 1 in
  assign (set_latitude (if negb (int_truthy is_latitude_north)
                        then float_opp (float_abs lat) else float_abs lat));;
  assign (set_longitude (if int_truthy is_longitude_west
                         then float_opp (float_abs lon) else float_abs lon));;
  assign (set_direction (Z.land course_status 0x03FF));;
  let gps_fixed := Z.land (Z.shiftr course_status 12) 1 in
  try_pass (decode_trailing body gps_fixed);;
  get_data.

(** The value the function returns: the dict, or [None] when the outer
    [except Exception] caught something. *)
Definition decode_location (body : bytes) : option location_data :=
  match decode_fields body empty_dict with
  | (_, Ok data) => Some data
  | (_, Raise _) => None
  end.

(** ** The collaborators: log, device state store, sender *)

Inductive level := DEBUG | INFO | WARNING | ERROR.

(** One constructor per log call of the modelled functions, carrying the
    values its message interpolates. *)
Inductive message :=
| MsgDecodeFailed (body : bytes) (e : exn)
| MsgLocationPacket (packet : string)
| MsgAlarmTooShort (body : bytes)
| MsgAlarmNoTimestamp (dev_id : string)
| MsgAlarmFromMemory (dev_id : string)
| MsgAlarmTranslated (alarm_code suntech_alert_id : Z) (dev_id : string)
| MsgAlertPacket (packet : string)
| MsgAlarmUnmapped (dev_id : string) (alarm_code : Z)
| MsgHeartbeatPacket (packet : string)
| MsgBuilding (hdr dev_id : string) (is_realtime : bool)
    (alert_id geo_fence_id : option Z) (location : location_data)
| MsgBuilt (packet : string)
| MsgBuiltALV (packet : string)
| MsgBuiltRES (packet : string).

(** Modelled from the spec: the device state store ([app.services.redis_service]
    is not part of the sources). Per device it holds the fields
    [last_location_data], the JSON text of a location record, kept here as
    the record that text decodes to, and [last_output_status], kept as the
    text [hget] returns. *)
Record device_state := mk_device_state {
  last_location_data : option location_data;
  last_output_status : option string
}.

(** The state the handlers act on: the store, the log written so far and
    the packets handed to [send_to_main_server], oldest first. *)
Record world := mk_world {
  redis : gmap string device_state;
  logs : list (level * message);
  sent : list (string * Z * string)
}.

Definition M (A : Type) : Type := world → world * result A.

Global Instance M_ret : MRet M := λ A a w, (w, Ok a).
Global Instance M_bind : MBind M := λ A B k m w,
  match m w with
  | (w', Ok a) => k a w'
  | (w', Raise e) => (w', Raise e)
  end.

Definition raise {A} (e : exn) : M A := λ w, (w, Raise e).
Definition liftM {A} (r : result A) : M A := λ w, (w, r).

Definition log (l : level) (m : message) : M unit := λ w,
  (mk_world (redis w) (logs w ++ [(l, m)]) (sent w), Ok tt).

(** The state [w] after [entries] have been logged. *)
Definition add_logs (entries : list (level * message)) (w : world) : world :=
  mk_world (redis w) (logs w ++ entries) (sent w).

(** The entries of a log that are warnings. *)
Definition is_warning (entry : level * message) : bool :=
  match entry.1 with WARNING => true | _ => false end.

(** Modelled from the spec: [redis_client.hget(dev_id, field)] and
    [redis_client.hset(dev_id, field, value)] for the two fields. *)
Definition hget_last_location_data (dev_id : string) : M (option location_data) := λ w,
  (w, Ok (redis w !! dev_id ≫= last_location_data)).

Definition hget_last_output_status (dev_id : string) : M (option string) := λ w,
  (w, Ok (redis w !! dev_id ≫= last_output_status)).

Definition hset_last_location_data (dev_id : string) (doc : location_data) : M unit := λ w,
  let old := redis w !! dev_id ≫= last_output_status in
  (mk_world (<[dev_id := mk_device_state (Some doc) old]> (redis w)) (logs w) (sent w), Ok tt).

Definition hset_last_output_status (dev_id : string) (v : Z) : M unit := λ w,
  let old := redis w !! dev_id ≫= last_location_data in
  (mk_world (<[dev_id := mk_device_state old (Some (pretty v))]> (redis w)) (logs w) (sent w), Ok tt).

(** Modelled from the spec: [send_to_main_server(dev_id, serial, packet)]
    ([app.src.connection.main_server_connection] is not part of the
    sources); delivery is the sender's concern. *)
Definition send_to_main_server (dev_id : string) (serial : Z) (packet : string) : M unit := λ w,
  (mk_world (redis w) (logs w) (sent w ++ [(dev_id, serial, packet)]), Ok tt).

(** [json.loads(s)]: [None] is a [TypeError]. *)
Definition json_loads (s : option location_data) : result location_data :=
  match s with Some doc => Ok doc | None => Raise TypeError end.

(** Truth value of what [hget] returned. *)
Definition opt_str_truthy (o : option string) : bool :=
  match o with Some s => str_truthy s | None => false end.

(** ** The Suntech packet builders (utils.py) *)

(** [''.join(filter(str.isdigit, dev_id))[-10:]]. *)
Definition normalize_dev_id (dev_id : string) : string :=
  let dev_id_normalized := filter_chars isdigit dev_id in
  slice_from (-10) dev_id_normalized.

(** [d['timestamp'].strftime(...)]: a missing key is a [KeyError], a cached
    text has no [strftime]. *)
Definition timestamp_of (d : location_data) : result datetime :=
  match timestamp d with
  | Some (TDateTime t) => Ok t
  | Some (TString _) => Raise AttributeError
  | None => Raise KeyError
  end.

(** [d[key]]. *)
Definition getitem {A} (o : option A) : result A :=
  match o with Some v => Ok v | None => Raise KeyError end.

(** [f"+{x:.6f}" if x >= 0 else f"{x:.6f}"]. *)
Definition format_signed (x : pyfloat) : string :=
  if float_ge0 x then "+" +:+ format_f 6 x else format_f 6 x.

Definition build_suntech_packet (hdr dev_id : string) (location : location_data)
    (serial : Z) (is_realtime : bool) (alert_id geo_fence_id : option Z) : M string :=
  log DEBUG (MsgBuilding hdr dev_id is_realtime alert_id geo_fence_id location);;
  let dev_id_normalized := filter_chars isdigit dev_id in
  ts ← liftM (timestamp_of location);
  lat ← liftM (getitem (latitude location));
  lon ← liftM (getitem (longitude location));
  speed ← liftM (getitem (speed_kmh location));
  dir ← liftM (getitem (direction location));
  output_status ← hget_last_output_status dev_id;
  let base_fields := [
    hdr;
    slice_from (-10) dev_id_normalized;
    "FFF83F";
    "218";
    "1.0.12";
    if is_realtime then "1" else "0";
    strftime_Ymd ts;
    strftime_HMS ts;
    format_signed lat;
    format_signed lon;
    format_f 2 (float_of_Z speed);
    format_f 2 (float_of_Z dir);
    pretty (default 15 (satellites location));
    if int_truthy (Z.land (default 0 (status_bits location)) 2) then "1" else "0";
    "0000000" +:+ pretty (Z.land (default 0 (status_bits location)) 1);
    "0000000" +:+ (if opt_str_truthy output_status then default "" output_status else "0")
  ] in
  let assign_map := "00028003" in
  let telemetry_fields := [
    assign_map;
    "12.43";
    "0.0";
    pretty (default 0 (gps_odometer location));
    "1"
  ] in
  let fields :=
    if String.eqb hdr "STT" then
      let mode := if opt_str_truthy output_status then "0" else "1" in
      let stt_rpt_type := "1" in
      let suntech_serial := serial mod 10000 in
      let msg_num := zero_pad 4 suntech_serial in
      let reserved := "" in
      (base_fields ++ [mode; stt_rpt_type; msg_num; reserved] ++ telemetry_fields)%list
    else if String.eqb hdr "ALT" then
      let alert_mod :=
        match alert_id, geo_fence_id with
        | Some a, Some g => if (a =? 5) || (a =? 6) then pretty g else ""
        | _, _ => ""
        end in
      (base_fields ++ [from_option pretty "None" alert_id; alert_mod; ""; ""] ++ telemetry_fields)%list
    else base_fields in
  let packet := join ";" fields in
  log DEBUG (MsgBuilt packet);;
  mret packet.

Definition build_suntech_alv_packet (dev_id : string) : M string :=
  let dev_id_normalized := filter_chars isdigit dev_id in
  let cutted_dev_id := slice_from (-10) dev_id_normalized in
  let packet := "ALV;" +:+ cutted_dev_id in
  log DEBUG (MsgBuiltALV packet);;
  mret packet.

(** [command_parts[i]]. *)
Definition list_index (l : list string) (i : nat) : result string :=
  match l !! i with Some s => Ok s | None => Raise IndexError end.

(** [now] is what [datetime.now()] returns at the call. *)
Definition build_suntech_res_packet (now : datetime) (dev_id : string)
    (command_parts : list string) (location : location_data) : M string :=
  cmd_group ← liftM (list_index command_parts 2);
  cmd_action ← liftM (list_index command_parts 3);
  ts ← liftM (match timestamp location with
              | None => Ok now
              | Some (TDateTime t) => Ok t
              | Some (TString _) => Raise AttributeError
              end);
  let date_fields := [strftime_Y ts; strftime_m ts; strftime_d ts; strftime_HMS ts] in
  output_status ← hget_last_output_status dev_id;
  let mode := if opt_str_truthy output_status then "0" else "1" in
  let dev_id_normalized := filter_chars isdigit dev_id in
  let packet_fields := ([
    "RES";
    slice_from (-10) dev_id_normalized;
    cmd_group;
    cmd_action] ++ date_fields ++ [
    "0";
    format_f 6 (default (float_of_Z 0) (latitude location));
    format_f 6 (default (float_of_Z 0) (longitude location));
    format_f 2 (from_option float_of_Z (float_of_Z 0) (speed_kmh location));
    format_f 2 (from_option float_of_Z (float_of_Z 0) (direction location));
    pretty (default 0 (satellites location));
    if int_truthy (Z.land (default 0 (status_bits location)) 2) then "1" else "0";
    pretty (default 0 (gps_odometer location));
    "0.0";
    "0000000" +:+ pretty (Z.land (default 0 (status_bits location)) 1);
    "0000000" +:+ (if opt_str_truthy output_status then default "" output_status else "0");
    mode;
    "0"
  ])%list in
  let packet := join ";" packet_fields in
  log INFO (MsgBuiltRES packet);;
  mret packet.

(** ** The packet handlers (mapper.py) *)

Definition VL01_TO_SUNTECH_ALERT_MAP : list (Z * Z) := [
  (0x01, 42);
  (0x02, 41);
  (0x03, 15);
  (0x04, 6);
  (0x05, 5);
  (0x06, 1);
  (0x19, 14);
  (0xF0, 46);
  (0xF1, 47);
  (0x13, 147);
  (0x14, 73);
  (0xFE, 33);
  (0xFF, 34)
].

(** [table.get(key)]. *)
Fixpoint dict_get (table : list (Z * Z)) (key : Z) : option Z :=
  match table with
  | [] => None
  | (k, v) :: rest => if k =? key then Some v else dict_get rest key
  end.

(** [decode_location_packet]: the decoded dict, or a logged failure and
    [None]. *)
Definition decode_location_packet (body : bytes) : M (option location_data) :=
  match decode_fields body empty_dict with
  | (_, Ok data) => mret (Some data)
  | (_, Raise e) => log ERROR (MsgDecodeFailed body e);; mret None
  end.

(** ["%Y-%m-%dT%H:%M:%S"]. *)
Definition strftime_iso (d : datetime) : string :=
  pretty (dt_year d) +:+ "-" +:+ zero_pad 2 (dt_month d) +:+ "-" +:+ zero_pad 2 (dt_day d)
  +:+ "T" +:+ strftime_HMS d.

Definition handle_location_packet (dev_id_str : string) (serial : Z) (body : bytes) : M unit :=
  location ← decode_location_packet body;
  match location with
  | None => mret tt
  | Some location_data =>
    if dict_is_empty location_data then mret tt else
    ts ← liftM (timestamp_of location_data);
    let last_location_data := set_timestamp (TString (strftime_iso ts)) location_data in
    hset_last_location_data dev_id_str last_location_data;;
    suntech_packet ← build_suntech_packet "STT" dev_id_str location_data serial
                       (default true (is_realtime location_data)) None None;
    if str_truthy suntech_packet then
      log INFO (MsgLocationPacket suntech_packet);;
      encoded ← liftM (encode_ascii suntech_packet);
      send_to_main_server dev_id_str serial encoded
    else mret tt
  end.

(** Truth value of a timestamp: a [datetime] is always true, a text when
    it is not empty. *)
Definition timestamp_truthy (t : timestamp_val) : bool :=
  match t with TDateTime _ => true | TString s => str_truthy s end.

(** [alarm_datetime > limit] with [limit = now - timedelta(minutes=2)];
    a text does not compare with a [datetime]. *)
Definition newer_than_limit (t : timestamp_val) (now : datetime) : result bool :=
  match t with
  | TDateTime d => Ok (later_than_minus_minutes d now 2)
  | TString _ => Raise TypeError
  end.

(** [handle_alarm_packet] from the statement after the decoding on, with
    [alarm_location_data] what [decode_location_packet] returned. [now] is
    what [datetime.now(timezone.utc)] returns. *)
Definition handle_alarm_decoded (now : datetime) (dev_id_str : string) (serial : Z)
    (body : bytes) (alarm_location_data : option location_data) : M unit :=
  alarm_location ← liftM (match alarm_location_data with
                          | Some d => Ok d
                          | None => Raise AttributeError
                          end);
  match timestamp alarm_location with
  | None => log INFO (MsgAlarmNoTimestamp dev_id_str)
  | Some alarm_datetime =>
    if negb (timestamp_truthy alarm_datetime)
    then log INFO (MsgAlarmNoTimestamp dev_id_str) else
    newer ← liftM (newer_than_limit alarm_datetime now);
    (if negb newer then log INFO (MsgAlarmFromMemory dev_id_str) else mret tt);;
    last_location_data_str ← hget_last_location_data dev_id_str;
    last_location_data ← liftM (json_loads last_location_data_str);
    let definitive_location_data := dict_merge last_location_data alarm_location in
    if dict_is_empty definitive_location_data then mret tt else
    alarm_code ← liftM (index body 17);
    let suntech_alert_id := dict_get VL01_TO_SUNTECH_ALERT_MAP alarm_code in
    match suntech_alert_id with
    | Some alert_id =>
      if int_truthy alert_id then
        log INFO (MsgAlarmTranslated alarm_code alert_id dev_id_str);;
        suntech_packet ← build_suntech_packet "ALT" dev_id_str definitive_location_data
                           serial true (Some alert_id) None;
        if str_truthy suntech_packet then
          log INFO (MsgAlertPacket suntech_packet);;
          encoded ← liftM (encode_ascii suntech_packet);
          send_to_main_server dev_id_str serial encoded
        else mret tt
      else log WARNING (MsgAlarmUnmapped dev_id_str alarm_code)
    | None => log WARNING (MsgAlarmUnmapped dev_id_str alarm_code)
    end
  end.

Definition handle_alarm_packet (now : datetime) (dev_id_str : string) (serial : Z)
    (body : bytes) : M unit :=
  if (length body <? 21)%nat then log INFO (MsgAlarmTooShort body) else
  alarm_location_data ← decode_location_packet (slice 0 16 body);
  handle_alarm_decoded now dev_id_str serial body alarm_location_data.

Definition handle_heartbeat_packet (dev_id_str : string) (serial : Z) (body : bytes) : M unit :=
  terminal_info ← liftM (index body 0);
  let output_status := Z.land (Z.shiftr terminal_info 7) 1 in
  hset_last_output_status dev_id_str output_status;;
  suntech_packet ← build_suntech_alv_packet dev_id_str;
  if str_truthy suntech_packet then
    log INFO (MsgHeartbeatPacket suntech_packet);;
    encoded ← liftM (encode_ascii suntech_packet);
    send_to_main_server dev_id_str serial encoded
  else mret tt.

(** ** Vocabulary of the specification

    The fields of a frame as the specification names them, read straight
    from the bytes, to state what the decoder computes. *)

(** Value of the byte at offset [i] (0 when the body is shorter). *)
Definition byte_at (body : bytes) (i : nat) : Z := default 0 (byte_val <$> body !! i).

(** The calendar values of bytes 0–5 are accepted by [datetime]. *)
Definition timestamp_bytes_valid (body : bytes) : bool :=
  valid_date (2000 + byte_at body 0) (byte_at body 1) (byte_at body 2)
  && valid_time (byte_at body 3) (byte_at body 4) (byte_at body 5).

(** The fixed layout decodes: 18 bytes are there and the date is valid. *)
Definition fixed_layout_ok (body : bytes) : bool :=
  (18 <=? length body)%nat && timestamp_bytes_valid body.

Definition lat_raw_of (body : bytes) : Z := be_uint (slice 7 11 body).
Definition lon_raw_of (body : bytes) : Z := be_uint (slice 11 15 body).
Definition course_status_of (body : bytes) : Z := be_uint (slice 16 18 body).
Definition mcc_of (body : bytes) : Z := be_uint (slice 18 20 body).

Definition mnc_length_of (body : bytes) : nat :=
  if Z.testbit (mcc_of body) 15 then 2%nat else 1%nat.

Definition acc_at_of (body : bytes) : nat := (20 + mnc_length_of body + 12)%nat.

(** Fields 1–5 of the specification's decoder. *)
Definition fixed_fields (body : bytes) : location_data :=
  let lat := float_div (lat_raw_of body) 1800000 in
  let lon := float_div (lon_raw_of body) 1800000 in
  let cs := course_status_of body in
  {| timestamp := Some (TDateTime (mk_datetime (2000 + byte_at body 0) (byte_at body 1)
                          (byte_at body 2) (byte_at body 3) (byte_at body 4) (byte_at body 5) 0));
     satellites := Some (Z.land (byte_at body 6) 15);
     speed_kmh := Some (byte_at body 15);
     latitude := Some (if Z.testbit cs 10 then float_abs lat else float_opp (float_abs lat));
     longitude := Some (if Z.testbit cs 11 then float_opp (float_abs lon) else float_abs lon);
     direction := Some (Z.land cs 1023);
     status_bits := None; is_realtime := None; gps_odometer := None |}.

(** The GPS-fix flag as the decoder computes it: bit 12 of the
    course-status word. *)
Definition gps_fixed_of (body : bytes) : Z := Z.land (Z.shiftr (course_status_of body) 12) 1.

(** [status_bits] from the fix flag of the course-status word and the ACC
    byte at offset [at_]. *)
Definition status_bits_at (body : bytes) (at_ : nat) : Z :=
  (if Z.testbit (course_status_of body) 12 then 2 else 0)
  + (if byte_at body at_ =? 1 then 1 else 0).

Definition is_some {A} (o : option A) : bool :=
  match o with Some _ => true | None => false end.

(** The normalized device identifier in the words of the specification:
    remove every character that is not a digit, keep at most the last ten
    of what remains. *)
Definition digits_of (s : string) : list ascii :=
  List.filter isdigit (list_ascii_of_string s).

Definition last_n {A} (n : nat) (l : list A) : list A := drop (length l - n) l.

Definition normalize_spec (dev_id : string) : string :=
  string_of_list_ascii (last_n 10 (digits_of dev_id)).

(** The output status a heartbeat body carries: bit 7 of its byte 0. *)
Definition output_bit (b0 : byte) : Z := if Z.testbit (byte_val b0) 7 then 1 else 0.

(** ** Sample frames *)

(** A location body with only the fixed layout: 2024-06-01 12:00:00,
    8 satellites, raw latitude 162000000, raw longitude 81000000, 50 km/h,
    course-status word 0x1420 (fix valid, bit 10 set, bit 11 clear,
    direction 32). *)
Definition frame_fix : bytes :=
  [x18; x06; x01; x0c; x00; x00; x08; x09; xa7; xec; x80; x04; xd3; xf6; x40; x32; x14; x20].

(** The record the sample location [frame_fix] decodes to. *)
Definition frame_fix_record : location_data :=
  Eval vm_compute in default empty_dict (decode_location frame_fix).

(** What follows the MCC in a full location frame: a one-byte MNC, four
    bytes of LAC, two cell-tower entries, the ACC byte (on), a byte that is
    not read, the realtime byte (live) and the odometer (12345 km). *)
Definition frame_tail : bytes :=
  [x05; x00; x00; x1f; x40; x00; x00; x2a; x01; x00; x00; x2a; x02;
   x01; x00; x00; x00; x00; x30; x39].

(** A full location frame, MCC 0x02D4 (bit 15 clear). *)
Definition frame_full : bytes := frame_fix ++ [x02; xd4] ++ frame_tail.

(** The same frame cut after the realtime byte: the odometer is missing. *)
Definition frame_truncated : bytes := take 36 frame_full.

(** ** Sample states *)

Definition empty_world : world := mk_world ∅ [] [].

Definition sample_dev_id : string := "imei:123-456-7890123".

(** The state after a full location frame of the sample device. *)
Definition located_world : world :=
  (handle_location_packet sample_dev_id 10003 frame_full empty_world).1.

(** A 21-byte alarm frame: the first 16 bytes of the sample location, and
    the alarm code at byte 17. *)
Definition frame_alarm (code : byte) : bytes :=
  take 16 frame_fix ++ [x14; code; x00; x00; x00].

(** One minute, and one hour, after the timestamp of the sample frames. *)
Definition sample_now : datetime := mk_datetime 2024 6 1 12 1 0 0.
Definition sample_later : datetime := mk_datetime 2024 6 1 13 0 0 0.

(** ** Vocabulary of the alarm handler *)

(** The log entry that flags a frame as replayed from memory: written when
    the frame's timestamp is not newer than [now] minus two minutes. *)
Definition memory_flag (alarm_location_data : option location_data) (now : datetime)
    (dev_id : string) : list (level * message) :=
  match alarm_location_data ≫= timestamp with
  | Some (TDateTime ts) =>
      if later_than_minus_minutes ts now 2 then [] else [(INFO, MsgAlarmFromMemory dev_id)]
  | _ => []
  end.

(** A computation that never reads the log and only appends to it: from a
    store and a list of sent packets, its result, its new store, what it
    sends and what it logs are the same whatever was logged before. *)
Definition log_blind {A} (m : M A) : Prop :=
  ∀ rd st, ∃ rd' st' entries r,
    ∀ l, m (mk_world rd l st) = (mk_world rd' (l ++ entries) st', r).

(** ** Further vocabulary *)

(** The text encodes in ASCII. *)
Definition all_ascii (s : string) : bool := forallb is_ascii (list_ascii_of_string s).

(** The text [hget] returned, if any, encodes in ASCII. *)
Definition opt_all_ascii (o : option string) : bool :=
  match o with Some s => all_ascii s | None => true end.

(** The computation returned instead of raising. *)
Definition is_ok {A} (r : result A) : bool :=
  match r with Ok _ => true | Raise _ => false end.

(** The timestamp of the record is a [datetime]. *)
Definition has_datetime (d : location_data) : bool :=
  match timestamp d with Some (TDateTime _) => true | _ => false end.

(** The keys the STT/ALT builder reads with [d[key]]. *)
Definition has_required_keys (d : location_data) : bool :=
  is_some (timestamp d) && is_some (latitude d) && is_some (longitude d)
  && is_some (speed_kmh d) && is_some (direction d).

(** The instant bytes 0–5 of a body stand for. *)
Definition frame_timestamp (body : bytes) : datetime :=
  mk_datetime (2000 + byte_at body 0) (byte_at body 1) (byte_at body 2)
    (byte_at body 3) (byte_at body 4) (byte_at body 5) 0.

(** The instant a RES packet is dated with: the record's timestamp, or the
    clock when the record has none. *)
Definition res_time (now : datetime) (location : location_data) : datetime :=
  match timestamp location with Some (TDateTime t) => t | _ => now end.

(** The timestamp of the record is a text. *)
Definition has_text_timestamp (d : location_data) : bool :=
  match timestamp d with Some (TString _) => true | _ => false end.

(** ** [handle_reply_command_packet] (mapper.py) *)

(** [bs.decode("ascii", errors="ignore")]: the bytes outside ASCII are
    left out, the others are the characters of the text. *)
Definition decode_ascii_ignore (bs : bytes) : string :=
  string_of_list_ascii (map ascii_of_byte (List.filter (λ b, byte_val b <? 128) bs)).

(** What this handler writes besides the packets it sends and the log
    entries of the builder: the text it prints, and its own error entry,
    which stands for the call of [logger.error] in its [except] clause. *)
Inductive reply_output :=
| Printed (text : string)
| ErrorLogged.

(** The state the reply handler acts on: the state of the other handlers,
    and what it has written itself, oldest first. *)
Record reply_state := mk_reply_state {
  rs_world : world;
  rs_out : list reply_output
}.

Definition MR (A : Type) : Type := reply_state → reply_state * result A.

Global Instance MR_ret : MRet MR := λ A a s, (s, Ok a).
Global Instance MR_bind : MBind MR := λ A B k m s,
  match m s with
  | (s', Ok a) => k a s'
  | (s', Raise e) => (s', Raise e)
  end.

(** A computation of the other handlers, run on the state they share. *)
Definition lift_world {A} (m : M A) : MR A := λ s,
  let (w', r) := m (rs_world s) in (mk_reply_state w' (rs_out s), r).

Definition emit (o : reply_output) : MR unit := λ s,
  (mk_reply_state (rs_world s) (rs_out s ++ [o]), Ok tt).

(** [try: m except Exception as e: handler]. *)
Definition try_except (m : MR unit) (handler : exn → MR unit) : MR unit := λ s,
  match m s with
  | (s', Raise e) => handler e s'
  | done => done
  end.

(** [now] is what [datetime.now(timezone.utc)] returns in the handler,
    [now_local] what [datetime.now()] returns in the builder. *)
Definition handle_reply_command_packet (now now_local : datetime) (dev_id : string)
    (serial : Z) (body : bytes) : MR unit :=
  try_except
    (let command_content := slice 5 (length body - 4) body in
     let command_content_str := decode_ascii_ignore command_content in
     if str_truthy command_content_str then
       last_location_data_str ← lift_world (hget_last_location_data dev_id);
       last_location_data ← lift_world (liftM (json_loads last_location_data_str));
       let last_location_data := set_timestamp (TDateTime now) last_location_data in
       packet ←
         (if String.eqb command_content_str "RELAY 1" then
            p ← lift_world (build_suntech_res_packet now_local dev_id
                              ["CMD"; dev_id; "04"; "01"] last_location_data);
            mret (Some p)
          else if String.eqb command_content_str "RELAY 0" then
            p ← lift_world (build_suntech_res_packet now_local dev_id
                              ["CMD"; dev_id; "04"; "02"] last_location_data);
            mret (Some p)
          else
            emit (Printed command_content_str);;
            mret None);
       match packet with
       | Some p =>
           if str_truthy p then
             encoded ← lift_world (liftM (encode_ascii p));
             lift_world (send_to_main_server dev_id serial encoded)
           else mret tt
       | None => mret tt
       end
     else mret tt)
    (λ e, emit ErrorLogged).

(** The bytes of an ASCII text, and a reply body that carries it: five
    bytes before the command and four after. *)
Definition ascii_bytes (s : string) : bytes := map byte_of_ascii (list_ascii_of_string s).

Definition reply_body (command : string) : bytes :=
  [x00; x00; x00; x00; x00] ++ ascii_bytes command ++ [x00; x00; x00; x00].

Definition reply_start (w : world) : reply_state := mk_reply_state w [].


(** ** The fields of a packet *)

(** [s.split(sep)] for a separator of one character: the pieces between
    the separators, in order; a text without separator is its own only
    piece, and the empty text gives one empty piece. *)
Fixpoint split_on (sep : ascii) (s : string) : list string :=
  match s with
  | EmptyString => [EmptyString]
  | String c rest =>
      if Ascii.eqb c sep then EmptyString :: split_on sep rest
      else match split_on sep rest with
           | piece :: pieces => String c piece :: pieces
           | [] => [String c EmptyString]
           end
  end.

(** The fields a receiver reads in a packet: [packet.split(";")]. *)
Definition split_fields (packet : string) : list string := split_on ";" packet.

(** The text holds no field separator. *)
Definition no_semicolon (s : string) : bool :=
  forallb (λ c, negb (Ascii.eqb c ";")) (list_ascii_of_string s).

Definition opt_no_semicolon (o : option string) : bool :=
  match o with Some s => no_semicolon s | None => true end.

(** A device identifier that holds the superscript two, a digit for
    [str.isdigit] that ASCII cannot encode, and a store with a cached
    location for it. *)
Definition superscript_dev_id : string := String "178"%char "7".

Definition superscript_world : world :=
  mk_world {[ superscript_dev_id := mk_device_state (Some frame_fix_record) None ]} [] [].
(** ** Facts about the primitives *)

Lemma byte_val_range b : 0 <= byte_val b < 256.
Proof.
  unfold byte_val. pose proof (Byte.to_N_bounded b) as H. lia.
Qed.

Lemma bit_test x n : 0 <= n → int_truthy (Z.land (Z.shiftr x n) 1) = Z.testbit x n.
Proof.
  intros Hn. unfold int_truthy.
  change 1 with (Z.ones 1). rewrite Z.land_ones by lia.
  rewrite <- Z.bit0_mod, Z.shiftr_spec by lia. rewrite Z.add_0_l.
  destruct (Z.testbit x n); reflexivity.
Qed.

Lemma land_shiftr_1 x n : 0 <= n → Z.land (Z.shiftr x n) 1 = if Z.testbit x n then 1 else 0.
Proof.
  intros Hn. change 1 with (Z.ones 1) at 1. rewrite Z.land_ones by lia.
  rewrite <- Z.bit0_mod, Z.shiftr_spec by lia. rewrite Z.add_0_l.
  destruct (Z.testbit x n); reflexivity.
Qed.

Lemma length_slice a b (body : bytes) :
  length (slice a b body) = ((b - a) `min` (length body - a))%nat.
Proof. unfold slice. rewrite length_take, length_drop. reflexivity. Qed.

Lemma index_eq (body : bytes) i :
  index body i = if decide (i < length body)%nat then Ok (byte_at body i) else Raise IndexError.
Proof.
  unfold index, byte_at. destruct (body !! i) as [b|] eqn:E.
  - apply lookup_lt_Some in E. rewrite decide_True by done. reflexivity.
  - apply lookup_ge_None in E. rewrite decide_False by lia. reflexivity.
Qed.


Lemma unpack_uint_slice n a (body : bytes) :
  (0 < n)%nat →
  unpack_uint n (slice a (a + n) body)
  = if decide (a + n ≤ length body)%nat
    then Ok (be_uint (slice a (a + n) body)) else Raise StructError.
Proof.
  intros Hn. unfold unpack_uint. rewrite length_slice.
  destruct (decide (a + n ≤ length body)%nat).
  - rewrite decide_True by lia. reflexivity.
  - rewrite decide_False by lia. reflexivity.
Qed.
Ltac unfold_D := unfold mbind, D_bind, mret, D_ret, lift, assign, try_pass, get_data.
Ltac by_cases := cbv zeta; repeat case_decide; try reflexivity; exfalso; lia.

Lemma decode_trailing_eq body gps d :
  decode_trailing body gps d =
    let a := acc_at_of body in
    if decide (length body < 20)%nat then (d, Raise StructError)
    else if decide (length body ≤ a)%nat then (d, Raise IndexError)
    else
      let d1 := set_status_bits
                  (let s := if gps =? 1 then Z.lor 0 2 else 0 in
                   if byte_at body a =? 1 then Z.lor s 1 else s) d in
      if decide (length body ≤ a + 2)%nat then (d1, Raise IndexError)
      else
        let d2 := set_is_realtime (byte_at body (a + 2) =? 0) d1 in
        if decide (length body < a + 7)%nat then (d2, Raise StructError)
        else (set_gps_odometer (be_uint (slice (a + 3) (a + 7) body)) d2, Ok tt).
Proof.
  unfold decode_trailing. unfold_D. unfold unpack_H, unpack_I.
  rewrite (unpack_uint_slice 2 18) by lia.
  destruct (decide (18 + 2 ≤ length body)%nat) as [H20|H20]; [|by_cases].
  rewrite bit_test by lia.
  change (be_uint (slice 18 (18 + 2) body)) with (mcc_of body).
  change ((20 + (if Z.testbit (mcc_of body) 15 then 2 else 1) + 4 + 8)%nat) with
    ((20 + mnc_length_of body + 4 + 8)%nat).
  replace ((20 + mnc_length_of body + 4 + 8)%nat) with (acc_at_of body) by (unfold acc_at_of; lia).
  set (a := acc_at_of body).
  rewrite (index_eq body a).
  destruct (decide (a < length body)%nat); [|by_cases].
  rewrite (index_eq body (a + 2)).
  destruct (decide (a + 2 < length body)%nat); [|by_cases].
  rewrite (unpack_uint_slice 4 (a + 3)) by lia.
  replace (a + 3 + 4)%nat with (a + 7)%nat by lia.
  destruct (decide (a + 7 ≤ length body)%nat); by_cases.
Qed.

(** ** The decoder, case by case *)

Ltac simpl_decode :=
  cbn -[decode_trailing valid_date valid_time float_div Z.land Z.shiftr Z.mul Z.add Z.testbit].

Lemma decode_fields_short body :
  (length body < 18)%nat → ∃ d e, decode_fields body empty_dict = (d, Raise e).
Proof.
  intros Hlen. unfold decode_fields, datetime_new. unfold_D.
  do 18 (destruct body as [|? body];
         [ simpl_decode;
           repeat match goal with
                  | |- context [if ?c then _ else _] => destruct c; simpl_decode
                  end;
           eauto | ]).
  simpl in Hlen. lia.
Qed.

Lemma decode_fields_long body :
  (18 ≤ length body)%nat →
  decode_fields body empty_dict =
    if timestamp_bytes_valid body
    then let d := (decode_trailing body (gps_fixed_of body) (fixed_fields body)).1 in (d, Ok d)
    else (empty_dict, Raise ValueError).
Proof.
  intros Hlen.
  do 18 (destruct body as [|? body]; [simpl in Hlen; lia|]). clear Hlen.
  unfold decode_fields, datetime_new, timestamp_bytes_valid. unfold_D.
  simpl_decode.
  destruct (valid_date _ _ _ && valid_time _ _ _); [|reflexivity].
  rewrite take_0. simpl_decode.
  unfold gps_fixed_of, fixed_fields, course_status_of, lat_raw_of, lon_raw_of.
  simpl_decode. rewrite ?take_0.
  unfold unpack_II. rewrite decide_True by reflexivity. simpl_decode.
  unfold unpack_H, unpack_uint. rewrite decide_True by reflexivity. simpl_decode.
  rewrite !bit_test by lia.
  destruct (Z.testbit _ 10), (Z.testbit _ 11); reflexivity.
Qed.

Lemma decode_location_eq body :
  decode_location body =
    if fixed_layout_ok body
    then Some (decode_trailing body (gps_fixed_of body) (fixed_fields body)).1
    else None.
Proof.
  unfold decode_location, fixed_layout_ok.
  destruct (18 <=? length body)%nat eqn:Hlen.
  - apply Nat.leb_le in Hlen. rewrite decode_fields_long by done.
    destruct (timestamp_bytes_valid body); reflexivity.
  - apply Nat.leb_gt in Hlen.
    destruct (decode_fields_short body Hlen) as (d & e & ->). reflexivity.
Qed.
Lemma acc_at_of_range body : (33 ≤ acc_at_of body ≤ 34)%nat.
Proof. unfold acc_at_of, mnc_length_of. destruct (Z.testbit _ _); lia. Qed.

Lemma decode_trailing_keeps body g d :
  let d' := (decode_trailing body g d).1 in
  timestamp d' = timestamp d ∧ satellites d' = satellites d ∧ speed_kmh d' = speed_kmh d
  ∧ latitude d' = latitude d ∧ longitude d' = longitude d ∧ direction d' = direction d.
Proof.
  rewrite decode_trailing_eq. cbv zeta. repeat case_decide; simpl; auto 10.
Qed.

Lemma status_bits_code body a :
  (let s := if gps_fixed_of body =? 1 then Z.lor 0 2 else 0 in
   if byte_at body a =? 1 then Z.lor s 1 else s) = status_bits_at body a.
Proof.
  unfold status_bits_at, gps_fixed_of. rewrite land_shiftr_1 by lia.
  destruct (Z.testbit _ 12), (byte_at body a =? 1); reflexivity.
Qed.

(** Which optional fields a decoded record carries, by the length of the
    body: each is there exactly when the bytes it is read from are. *)
Lemma decode_trailing_optional body d0 :
  status_bits d0 = None → is_realtime d0 = None → gps_odometer d0 = None →
  let a := acc_at_of body in
  let d := (decode_trailing body (gps_fixed_of body) d0).1 in
  status_bits d = (if decide (a < length body)%nat
                   then Some (status_bits_at body a) else None)
  ∧ is_realtime d = (if decide (a + 2 < length body)%nat
                     then Some (byte_at body (a + 2) =? 0) else None)
  ∧ gps_odometer d = (if decide (a + 7 ≤ length body)%nat
                      then Some (be_uint (slice (a + 3) (a + 7) body)) else None).
Proof.
  intros H1 H2 H3. cbv zeta. rewrite decode_trailing_eq. cbv zeta.
  rewrite status_bits_code.
  pose proof (acc_at_of_range body).
  repeat case_decide; simpl; auto; exfalso; lia.
Qed.

Lemma decode_trailing_raises body g d :
  (∃ e, (decode_trailing body g d).2 = Raise e) ↔ (length body < acc_at_of body + 7)%nat.
Proof.
  rewrite decode_trailing_eq. cbv zeta.
  pose proof (acc_at_of_range body).
  repeat case_decide; simpl; (split; [intros [e He] | intros Hx]);
    first [lia | by eauto | discriminate He].
Qed.

(** ** The claims about the decoder *)

Lemma decode_location_fixed body d :
  decode_location body = Some d →
  fixed_layout_ok body = true
  ∧ d = (decode_trailing body (gps_fixed_of body) (fixed_fields body)).1.
Proof.
  rewrite decode_location_eq. destruct (fixed_layout_ok body); [|discriminate].
  intros [= <-]. done.
Qed.


(** C10: [decode_location_packet] never raises: it returns the decoded
    record or [None], and [None] exactly when the fixed layout is
    malformed (fewer than 18 bytes, or calendar values [datetime]
    refuses); it touches neither the store nor the sender. *)
Theorem decode_location_packet_total body w :
  (decode_location_packet body w).2 = Ok (decode_location body)
  ∧ is_some (decode_location body) = fixed_layout_ok body
  ∧ redis (decode_location_packet body w).1 = redis w
  ∧ sent (decode_location_packet body w).1 = sent w.
Proof.
  split; [|split].
  - unfold decode_location_packet, decode_location.
    destruct (decode_fields body empty_dict) as [d [data|e]]; reflexivity.
  - rewrite decode_location_eq. destruct (fixed_layout_ok body); reflexivity.
  - unfold decode_location_packet.
    destruct (decode_fields body empty_dict) as [d [data|e]]; split; reflexivity.
Qed.

(** C7, the claim as it stands fails: in a frame cut after the realtime
    byte the odometer cannot be read, and the record still carries
    [status_bits] and [is_realtime], decoded before the failure. *)
Lemma trailing_failure_keeps_decoded_fields :
  (decode_trailing frame_truncated (gps_fixed_of frame_truncated)
     (fixed_fields frame_truncated)).2 = Raise StructError
  ∧ ∃ d, decode_location frame_truncated = Some d
      ∧ status_bits d = Some 3 ∧ is_realtime d = Some true ∧ gps_odometer d = None.
Proof.
  split; [vm_compute; reflexivity|].
  eexists. split; [vm_compute; reflexivity|]. simpl. done.
Qed.

(** C7, amended: when the fixed layout decodes, a failure in the trailing
    fields still yields a record with timestamp, satellites, speed,
    latitude, longitude and direction; the odometer is absent, and
    [status_bits] and [is_realtime] are absent unless the byte each is read
    from is in the body. *)
Theorem trailing_failure_tolerated body e :
  fixed_layout_ok body = true →
  (decode_trailing body (gps_fixed_of body) (fixed_fields body)).2 = Raise e →
  ∃ d, decode_location body = Some d
    ∧ timestamp d = timestamp (fixed_fields body)
    ∧ satellites d = satellites (fixed_fields body)
    ∧ speed_kmh d = speed_kmh (fixed_fields body)
    ∧ latitude d = latitude (fixed_fields body)
    ∧ longitude d = longitude (fixed_fields body)
    ∧ direction d = direction (fixed_fields body)
    ∧ is_some (timestamp d) && is_some (satellites d) && is_some (speed_kmh d)
      && is_some (latitude d) && is_some (longitude d) && is_some (direction d) = true
    ∧ gps_odometer d = None
    ∧ status_bits d = (if decide (acc_at_of body < length body)%nat
                       then Some (status_bits_at body (acc_at_of body)) else None)
    ∧ is_realtime d = (if decide (acc_at_of body + 2 < length body)%nat
                       then Some (byte_at body (acc_at_of body + 2) =? 0) else None).
Proof.
  intros Hok Hfail. eexists. split.
  { rewrite decode_location_eq, Hok. reflexivity. }
  destruct (decode_trailing_keeps body (gps_fixed_of body) (fixed_fields body))
    as (Ht & Hs & Hv & Hlat & Hlon & Hdir).
  destruct (decode_trailing_optional body (fixed_fields body) eq_refl eq_refl eq_refl)
    as (Hsb & Hrt & Hodo).
  assert (length body < acc_at_of body + 7)%nat as Hlen.
  { apply (decode_trailing_raises body (gps_fixed_of body) (fixed_fields body)). eauto. }
  repeat split; try assumption.
  - rewrite Ht, Hs, Hv, Hlat, Hlon, Hdir. reflexivity.
  - rewrite Hodo. apply decide_False. lia.
Qed.

Lemma trailing_failure_tolerated_witness :
  ∃ d, decode_location frame_fix = Some d
    ∧ gps_odometer d = None ∧ status_bits d = None ∧ is_realtime d = None.
Proof.
  destruct (trailing_failure_tolerated frame_fix StructError eq_refl eq_refl)
    as (d & Hd & _ & _ & _ & _ & _ & _ & _ & Hodo & Hsb & Hrt).
  exists d. split; [exact Hd|]. split; [exact Hodo|]. split; [exact Hsb | exact Hrt].
Defined.
Lemma be_uint_2 (b0 b1 : byte) : be_uint [b0; b1] = byte_val b0 * 256 + byte_val b1.
Proof. reflexivity. Qed.

Lemma testbit_be16 (b0 b1 : byte) :
  Z.testbit (be_uint [b0; b1]) 15 = Z.testbit (byte_val b0) 7.
Proof.
  rewrite be_uint_2.
  pose proof (byte_val_range b0). pose proof (byte_val_range b1).
  change 15 with (7 + 8). rewrite <- Z.div_pow2_bits by lia.
  f_equal. change (2 ^ 8) with 256.
  rewrite Z.add_comm, Z.div_add by lia. rewrite Z.div_small by lia. reflexivity.
Qed.

(** Full records: when the body reaches the end of the odometer, the
    optional fields are the ones read at [acc_at_of]. *)
Lemma trailing_fields_read body d :
  decode_location body = Some d →
  (acc_at_of body + 7 ≤ length body)%nat →
  status_bits d = Some (status_bits_at body (acc_at_of body))
  ∧ is_realtime d = Some (byte_at body (acc_at_of body + 2) =? 0)
  ∧ gps_odometer d = Some (be_uint (slice (acc_at_of body + 3) (acc_at_of body + 7) body)).
Proof.
  intros Hd Hlen. apply decode_location_fixed in Hd as [_ ->].
  destruct (decode_trailing_optional body (fixed_fields body) eq_refl eq_refl eq_refl)
    as (Hsb & Hrt & Hodo).
  rewrite Hsb, Hrt, Hodo. rewrite !decide_True by lia. done.
Qed.

Ltac explicit_18 l H :=
  do 18 (destruct l as [|? l]; [discriminate H|]);
  destruct l; [clear H | discriminate H].

(** C5: the ACC byte is read at offset 20 + mnc_length + 12, with
    mnc_length 2 when bit 15 of the MCC (bytes 18–19, big-endian) is set and
    1 otherwise; a frame with the bit set and one more byte after the MCC
    decodes to the same record as the frame with the bit clear: ACC status,
    realtime flag and odometer are read one byte further. When the date
    bytes are valid and the odometer is there, both frames do decode, to
    one record that holds the ACC status read at offset 33 of the short
    frame (34 of the long one), the realtime flag read at 35 (36) and the
    odometer read at 36–39 (37–40), next to the fields of the fixed
    layout. *)
Theorem mnc_length_shifts_offsets (fixed tail : bytes) (m0 m0' m1 x : byte) :
  length fixed = 18%nat →
  Z.testbit (byte_val m0) 7 = false →
  Z.testbit (byte_val m0') 7 = true →
  let short := (fixed ++ m0 :: m1 :: tail)%list in
  let long := (fixed ++ m0' :: m1 :: x :: tail)%list in
  (∀ body d, decode_location body = Some d →
     (acc_at_of body + 7 ≤ length body)%nat →
     acc_at_of body = (20 + (if Z.testbit (mcc_of body) 15 then 2 else 1) + 12)%nat
     ∧ status_bits d = Some (status_bits_at body (acc_at_of body))
     ∧ is_realtime d = Some (byte_at body (acc_at_of body + 2) =? 0)
     ∧ gps_odometer d
       = Some (be_uint (slice (acc_at_of body + 3) (acc_at_of body + 7) body)))
  ∧ Z.testbit (mcc_of short) 15 = false ∧ Z.testbit (mcc_of long) 15 = true
  ∧ acc_at_of short = 33%nat ∧ acc_at_of long = 34%nat
  ∧ decode_location long = decode_location short
  ∧ (timestamp_bytes_valid fixed = true → (20 ≤ length tail)%nat →
     ∃ d, decode_location short = Some d ∧ decode_location long = Some d
          ∧ status_bits d = Some (status_bits_at short 33)
          ∧ status_bits d = Some (status_bits_at long 34)
          ∧ is_realtime d = Some (byte_at short 35 =? 0)
          ∧ is_realtime d = Some (byte_at long 36 =? 0)
          ∧ gps_odometer d = Some (be_uint (slice 36 40 short))
          ∧ gps_odometer d = Some (be_uint (slice 37 41 long))
          ∧ timestamp d = timestamp (fixed_fields fixed)
          ∧ satellites d = satellites (fixed_fields fixed)
          ∧ speed_kmh d = speed_kmh (fixed_fields fixed)
          ∧ latitude d = latitude (fixed_fields fixed)
          ∧ longitude d = longitude (fixed_fields fixed)
          ∧ direction d = direction (fixed_fields fixed)).
Proof.
  intros Hlen Hm0 Hm0'. cbv zeta.
  split.
  { intros body d Hd Hl. split; [reflexivity|]. by apply trailing_fields_read. }
  explicit_18 fixed Hlen. cbn [app].
  set (fixed := [_; _; _; _; _; _; _; _; _; _; _; _; _; _; _; _; _; _]).
  set (short := _ :: _ :: _ :: _ :: _ :: _ :: _ :: _ :: _ :: _ :: _ :: _ :: _ :: _ :: _
                :: _ :: _ :: _ :: m0 :: m1 :: tail).
  set (long := _ :: _ :: _ :: _ :: _ :: _ :: _ :: _ :: _ :: _ :: _ :: _ :: _ :: _ :: _
               :: _ :: _ :: _ :: m0' :: m1 :: x :: tail).
  assert (Z.testbit (mcc_of short) 15 = false) as Hs.
  { change (mcc_of short) with (be_uint [m0; m1]). by rewrite testbit_be16. }
  assert (Z.testbit (mcc_of long) 15 = true) as Hl.
  { change (mcc_of long) with (be_uint [m0'; m1]). by rewrite testbit_be16. }
  assert (acc_at_of short = 33%nat) as Has
    by (unfold acc_at_of, mnc_length_of; rewrite Hs; reflexivity).
  assert (acc_at_of long = 34%nat) as Hal
    by (unfold acc_at_of, mnc_length_of; rewrite Hl; reflexivity).
  repeat (split; [assumption|]).
  assert (decode_location long = decode_location short) as Heq.
  { rewrite !decode_location_eq.
    change (fixed_layout_ok long) with (fixed_layout_ok short).
    destruct (fixed_layout_ok short); [|reflexivity]. f_equal.
    change (fixed_fields long) with (fixed_fields short).
    change (gps_fixed_of long) with (gps_fixed_of short).
    rewrite !decode_trailing_eq. cbv zeta. rewrite Has, Hal.
    change (byte_at long 34) with (byte_at short 33).
    change (byte_at long (34 + 2)) with (byte_at short (33 + 2)).
    change (slice (34 + 3) (34 + 7) long) with (slice (33 + 3) (33 + 7) short).
    assert (length long = S (length short)) as Hlen by reflexivity.
    assert (20 ≤ length short)%nat by (simpl; lia).
    repeat case_decide; try reflexivity; exfalso; lia. }
  split; [exact Heq|].
  intros Hvalid Htail.
  assert (fixed_layout_ok short = true) as Hok by exact Hvalid.
  pose proof (decode_location_eq short) as Hshort. rewrite Hok in Hshort.
  set (d := (decode_trailing short (gps_fixed_of short) (fixed_fields short)).1) in Hshort.
  assert (acc_at_of short + 7 ≤ length short)%nat as Hfull
    by (rewrite Has; subst short; simpl; lia).
  assert (acc_at_of long + 7 ≤ length long)%nat as Hfull'
    by (rewrite Hal; subst long; simpl; lia).
  destruct (trailing_fields_read short d Hshort Hfull) as (Hsb & Hrt & Hodo).
  assert (decode_location long = Some d) as Hlong by (by rewrite Heq).
  destruct (trailing_fields_read long d Hlong Hfull') as (Hsb' & Hrt' & Hodo').
  rewrite Has in Hsb, Hrt, Hodo. rewrite Hal in Hsb', Hrt', Hodo'.
  exists d. do 8 (split; [assumption|]).
  exact (decode_trailing_keeps short (gps_fixed_of short) (fixed_fields short)).
Qed.

Lemma mnc_length_shifts_offsets_witness :
  acc_at_of frame_full = 33%nat
  ∧ decode_location (frame_fix ++ [x82; xd4; x00] ++ frame_tail) = decode_location frame_full
  ∧ ∃ d, decode_location frame_full = Some d
         ∧ decode_location (frame_fix ++ [x82; xd4; x00] ++ frame_tail) = Some d
         ∧ status_bits d = Some 3 ∧ is_realtime d = Some true
         ∧ gps_odometer d = Some 12345 ∧ speed_kmh d = Some 50.
Proof.
  pose proof (mnc_length_shifts_offsets frame_fix frame_tail x02 x82 xd4 x00
                eq_refl eq_refl eq_refl) as (_ & _ & _ & Hs & _ & Heq & Hdec).
  split; [exact Hs|]. split; [exact Heq|].
  destruct (Hdec eq_refl) as (d & Hd & Hd' & Hsb & _ & Hrt & _ & Hodo & _ & _ & _ & Hv & _).
  { simpl. lia. }
  exists d. repeat (split; [assumption|]). exact Hv.
Defined.
(** ** The claims about the encoders and the heartbeat handler *)

Ltac unfold_M :=
  unfold mbind, M_bind, mret, M_ret, liftM, log, raise, hget_last_output_status,
    hget_last_location_data, hset_last_output_status, hset_last_location_data,
    send_to_main_server.

Lemma length_string_of_list_ascii l : String.length (string_of_list_ascii l) = length l.
Proof. induction l as [|c l IH]; simpl; congruence. Qed.

Lemma normalize_dev_id_spec dev_id : normalize_dev_id dev_id = normalize_spec dev_id.
Proof.
  unfold normalize_dev_id, normalize_spec, slice_from, filter_chars, last_n, digits_of.
  set (ds := List.filter isdigit (list_ascii_of_string dev_id)).
  rewrite list_ascii_of_string_of_list_ascii, length_string_of_list_ascii.
  replace (-10 <? 0) with true by reflexivity.
  f_equal. f_equal. lia.
Qed.

Lemma normalize_dev_id_length dev_id : (String.length (normalize_dev_id dev_id) ≤ 10)%nat.
Proof.
  rewrite normalize_dev_id_spec. unfold normalize_spec, last_n.
  rewrite length_string_of_list_ascii, length_drop. lia.
Qed.

Lemma forallb_drop {A} (f : A → bool) n l : forallb f l = true → forallb f (drop n l) = true.
Proof.
  revert n. induction l as [|a l IH]; intros [|n] H; simpl in *; try done.
  apply andb_true_iff in H as [_ H]. by apply IH.
Qed.

Lemma normalize_dev_id_digits dev_id :
  forallb isdigit (list_ascii_of_string (normalize_dev_id dev_id)) = true.
Proof.
  rewrite normalize_dev_id_spec. unfold normalize_spec, last_n, digits_of.
  rewrite list_ascii_of_string_of_list_ascii. apply forallb_drop.
  apply forallb_forall. intros c Hc. by apply filter_In in Hc as [_ Hc].
Qed.

Lemma build_suntech_packet_id hdr dev_id location serial rt alert_id geo w p :
  (build_suntech_packet hdr dev_id location serial rt alert_id geo w).2 = Ok p →
  ∃ rest, p = hdr +:+ ";" +:+ normalize_dev_id dev_id +:+ ";" +:+ rest.
Proof.
  unfold build_suntech_packet. unfold_M. cbn -[join normalize_dev_id filter_chars slice_from].
  destruct (timestamp_of location) as [ts|]; [|discriminate].
  destruct (getitem (latitude location)) as [lat|]; [|discriminate].
  destruct (getitem (longitude location)) as [lon|]; [|discriminate].
  destruct (getitem (speed_kmh location)) as [v|]; [|discriminate].
  destruct (getitem (direction location)) as [dir|]; [|discriminate].
  cbn -[join normalize_dev_id filter_chars slice_from]. intros [= <-].
  destruct (String.eqb hdr "STT"); [|destruct (String.eqb hdr "ALT")];
    eexists; unfold join; cbn [app String.concat]; reflexivity.
Qed.

Example res_builder_returns :
  (build_suntech_res_packet sample_now sample_dev_id ["CMD"; sample_dev_id; "04"; "01"]
     frame_fix_record located_world).2
  = Ok "RES;4567890123;04;01;2024;06;01;12:00:00;0;90.000000;45.000000;50.00;32.00;8;0;0;0.0;00000000;00000000;1;0".
Proof. vm_compute. reflexivity. Qed.

Lemma build_suntech_alv_packet_eq dev_id w :
  build_suntech_alv_packet dev_id w
  = (mk_world (redis w) (logs w ++ [(DEBUG, MsgBuiltALV ("ALV;" +:+ normalize_dev_id dev_id))])
       (sent w),
     Ok ("ALV;" +:+ normalize_dev_id dev_id)).
Proof. reflexivity. Qed.

Lemma build_suntech_res_packet_id now dev_id parts location w p :
  (build_suntech_res_packet now dev_id parts location w).2 = Ok p →
  ∃ rest, p = "RES;" +:+ normalize_dev_id dev_id +:+ ";" +:+ rest.
Proof.
  unfold build_suntech_res_packet. unfold_M. cbn -[join normalize_dev_id filter_chars slice_from].
  destruct (list_index parts 2) as [g|]; [|discriminate].
  destruct (list_index parts 3) as [a|]; [|discriminate].
  destruct (timestamp location) as [[ts|s]|]; try discriminate;
    cbn -[join normalize_dev_id filter_chars slice_from]; intros [= <-];
    eexists; unfold join; cbn [app String.concat]; reflexivity.
Qed.

Lemma build_suntech_packet_returns hdr dev_id location serial rt alert_id geo w :
  has_required_keys location = true → has_datetime location = true →
  ∃ rest, (build_suntech_packet hdr dev_id location serial rt alert_id geo w).2
          = Ok (hdr +:+ ";" +:+ normalize_dev_id dev_id +:+ ";" +:+ rest).
Proof.
  unfold has_required_keys, has_datetime, build_suntech_packet, timestamp_of. unfold_M.
  destruct (timestamp location) as [[ts|s]|]; try discriminate.
  destruct (latitude location) as [lat|]; [|discriminate].
  destruct (longitude location) as [lon|]; [|discriminate].
  destruct (speed_kmh location) as [v|]; [|discriminate].
  destruct (direction location) as [dir|]; [|discriminate].
  intros _ _. cbn -[join normalize_dev_id filter_chars slice_from].
  destruct (String.eqb hdr "STT"); [|destruct (String.eqb hdr "ALT")];
    eexists; unfold join; cbn [app String.concat]; reflexivity.
Qed.

Lemma build_suntech_res_packet_returns now dev_id parts location w group action :
  parts !! 2%nat = Some group → parts !! 3%nat = Some action →
  has_text_timestamp location = false →
  ∃ rest, (build_suntech_res_packet now dev_id parts location w).2
          = Ok ("RES;" +:+ normalize_dev_id dev_id +:+ ";" +:+ rest).
Proof.
  intros Hg Ha. unfold has_text_timestamp, build_suntech_res_packet, list_index. unfold_M.
  cbn -[join normalize_dev_id filter_chars slice_from]. rewrite Hg, Ha.
  destruct (timestamp location) as [[ts|s]|]; try discriminate; intros _;
    cbn -[join normalize_dev_id filter_chars slice_from];
    eexists; unfold join; cbn [app String.concat]; reflexivity.
Qed.

(** C9: every encoder puts the normalized device identifier in its second
    field, and the normalized identifier is the text with every non-digit
    removed, cut to its last ten characters; "imei:123-456-7890123" gives
    "4567890123". The encoders return such a packet: the STT/ALT builder
    on every record that holds a datetime, latitude, longitude, speed and
    direction, the ALV builder always, the RES builder on every command
    with four parts and a record whose timestamp is not a text. *)
Theorem encoders_normalize_device_id (dev_id : string) :
  normalize_dev_id dev_id = normalize_spec dev_id
  ∧ (String.length (normalize_dev_id dev_id) ≤ 10)%nat
  ∧ forallb isdigit (list_ascii_of_string (normalize_dev_id dev_id)) = true
  ∧ (∀ hdr location serial rt alert_id geo w,
       has_required_keys location = true → has_datetime location = true →
       ∃ rest, (build_suntech_packet hdr dev_id location serial rt alert_id geo w).2
               = Ok (hdr +:+ ";" +:+ normalize_dev_id dev_id +:+ ";" +:+ rest))
  ∧ (∀ hdr location serial rt alert_id geo w p,
       (build_suntech_packet hdr dev_id location serial rt alert_id geo w).2 = Ok p →
       ∃ rest, p = hdr +:+ ";" +:+ normalize_dev_id dev_id +:+ ";" +:+ rest)
  ∧ (∀ w, (build_suntech_alv_packet dev_id w).2 = Ok ("ALV;" +:+ normalize_dev_id dev_id))
  ∧ (∀ now parts location w group action,
       parts !! 2%nat = Some group → parts !! 3%nat = Some action →
       has_text_timestamp location = false →
       ∃ rest, (build_suntech_res_packet now dev_id parts location w).2
               = Ok ("RES;" +:+ normalize_dev_id dev_id +:+ ";" +:+ rest))
  ∧ (∀ now parts location w p,
       (build_suntech_res_packet now dev_id parts location w).2 = Ok p →
       ∃ rest, p = "RES;" +:+ normalize_dev_id dev_id +:+ ";" +:+ rest)
  ∧ normalize_dev_id "imei:123-456-7890123" = "4567890123".
Proof.
  split; [apply normalize_dev_id_spec|].
  split; [apply normalize_dev_id_length|].
  split; [apply normalize_dev_id_digits|].
  split; [intros; by apply build_suntech_packet_returns|].
  split; [intros; by eapply build_suntech_packet_id|].
  split; [intros; by rewrite build_suntech_alv_packet_eq|].
  split; [intros; by eapply build_suntech_res_packet_returns|].
  split; [intros; by eapply build_suntech_res_packet_id|].
  reflexivity.
Qed.

Lemma encoders_normalize_device_id_witness :
  (∃ rest, (build_suntech_packet "STT" sample_dev_id frame_fix_record 10003 true None None
              empty_world).2 = Ok ("STT;4567890123;" +:+ rest))
  ∧ (∃ rest, (build_suntech_packet "ALT" sample_dev_id frame_fix_record 5 true (Some 1) None
                empty_world).2 = Ok ("ALT;4567890123;" +:+ rest))
  ∧ (build_suntech_alv_packet sample_dev_id empty_world).2 = Ok "ALV;4567890123"
  ∧ (∃ rest, (build_suntech_res_packet sample_now sample_dev_id
                ["CMD"; sample_dev_id; "04"; "01"] frame_fix_record located_world).2
             = Ok ("RES;4567890123;" +:+ rest)).
Proof.
  pose proof (encoders_normalize_device_id sample_dev_id)
    as (_ & _ & _ & Hstt & _ & Halv & Hres & _ & _).
  split; [exact (Hstt "STT" frame_fix_record 10003 true None None empty_world eq_refl eq_refl)|].
  split; [exact (Hstt "ALT" frame_fix_record 5 true (Some 1) None empty_world eq_refl eq_refl)|].
  split; [exact (Halv empty_world)|].
  exact (Hres sample_now ["CMD"; sample_dev_id; "04"; "01"] frame_fix_record located_world
           "04" "01" eq_refl eq_refl eq_refl).
Defined.
(** The builders do return on decoded records: the sample location frame
    yields this STT packet (serial 10003 is sent as 0003). *)
Example location_frame_sends_stt :
  sent located_world =
    [(sample_dev_id, 10003,
      "STT;4567890123;FFF83F;218;1.0.12;1;20240601;12:00:00;+90.000000;+45.000000;50.00;32.00;8;1;00000001;00000000;1;1;0003;;00028003;12.43;0.0;12345;1")].
Proof. vm_compute. reflexivity. Qed.

Lemma encode_ascii_alv s :
  forallb is_ascii (list_ascii_of_string s) = true →
  encode_ascii ("ALV;" +:+ s) = Ok ("ALV;" +:+ s).
Proof.
  intros H. unfold encode_ascii.
  change (list_ascii_of_string ("ALV;" +:+ s))
    with ("A"%char :: "L"%char :: "V"%char :: ";"%char :: list_ascii_of_string s).
  cbn [forallb]. rewrite H. reflexivity.
Qed.

(** C8, the claim as it stands fails: a heartbeat frame with an empty body
    has no byte 0; the handler raises [IndexError], stores nothing and
    sends nothing. *)
Lemma heartbeat_empty_body_raises :
  handle_heartbeat_packet sample_dev_id 7 [] empty_world = (empty_world, Raise IndexError).
Proof. reflexivity. Qed.

(** C8, amended: for every heartbeat frame whose body has a byte 0, and a
    device identifier whose digits are ASCII, the handler stores bit 7 of
    byte 0 as the device's [last_output_status] and sends the keep-alive
    packet "ALV;" followed by the normalized device identifier, whatever
    the rest of the body holds. *)
Theorem heartbeat_persists_and_sends dev_id serial (b0 : byte) (rest : bytes) w :
  forallb is_ascii (list_ascii_of_string (normalize_dev_id dev_id)) = true →
  let r := handle_heartbeat_packet dev_id serial (b0 :: rest) w in
  r.2 = Ok tt
  ∧ Z.land (Z.shiftr (byte_val b0) 7) 1 = output_bit b0
  ∧ redis r.1 !! dev_id ≫= last_output_status = Some (pretty (output_bit b0))
  ∧ redis r.1 !! dev_id ≫= last_location_data = redis w !! dev_id ≫= last_location_data
  ∧ (∀ other, other ≠ dev_id → redis r.1 !! other = redis w !! other)
  ∧ sent r.1 = (sent w ++ [(dev_id, serial, "ALV;" +:+ normalize_dev_id dev_id)])%list.
Proof.
  intros Hascii. cbv zeta.
  assert (Z.land (Z.shiftr (byte_val b0) 7) 1 = output_bit b0) as Hbit
    by (unfold output_bit; by rewrite land_shiftr_1).
  unfold handle_heartbeat_packet. unfold_M.
  cbn [index lookup list_lookup]. rewrite build_suntech_alv_packet_eq.
  change (str_truthy ("ALV;" +:+ normalize_dev_id dev_id)) with true. cbv iota.
  rewrite encode_ascii_alv by done. cbn [fst snd redis sent logs].
  rewrite Hbit.
  repeat split.
  - by rewrite lookup_insert_eq.
  - by rewrite lookup_insert_eq.
  - intros other Hne. by rewrite lookup_insert_ne.
Qed.

Lemma heartbeat_persists_and_sends_witness :
  let r := handle_heartbeat_packet sample_dev_id 7 [x80; x04; x03] empty_world in
  redis r.1 !! sample_dev_id ≫= last_output_status = Some "1"
  ∧ sent r.1 = [(sample_dev_id, 7, "ALV;4567890123")].
Proof.
  pose proof (heartbeat_persists_and_sends sample_dev_id 7 x80 [x04; x03] empty_world eq_refl)
    as (_ & _ & Hst & _ & _ & Hsent).
  split; [exact Hst | exact Hsent].
Defined.
(** ** The alarm handler *)

Section LogBlind.
Context {A B : Type}.

Lemma log_blind_ret (a : A) : log_blind (mret a).
Proof. intros rd st. exists rd, st, [], (Ok a). intros l. by rewrite app_nil_r. Qed.

Lemma log_blind_liftM (r : result A) : log_blind (liftM r).
Proof. intros rd st. exists rd, st, [], r. intros l. unfold liftM. by rewrite app_nil_r. Qed.

Lemma log_blind_bind (m : M A) (k : A → M B) :
  log_blind m → (∀ a, log_blind (k a)) → log_blind (m ≫= k).
Proof.
  intros Hm Hk rd st. destruct (Hm rd st) as (rd1 & st1 & e1 & r1 & H1).
  destruct r1 as [a|e].
  - destruct (Hk a rd1 st1) as (rd2 & st2 & e2 & r2 & H2).
    exists rd2, st2, (e1 ++ e2), r2. intros l.
    unfold mbind, M_bind. rewrite H1, H2, app_assoc. reflexivity.
  - exists rd1, st1, e1, (Raise e). intros l.
    unfold mbind, M_bind. rewrite H1. reflexivity.
Qed.
End LogBlind.

Lemma log_blind_log lv msg : log_blind (log lv msg).
Proof. intros rd st. exists rd, st, [(lv, msg)], (Ok tt). reflexivity. Qed.

Lemma log_blind_hget_status dev_id : log_blind (hget_last_output_status dev_id).
Proof.
  intros rd st. exists rd, st, [], (Ok (rd !! dev_id ≫= last_output_status)).
  intros l. unfold hget_last_output_status. cbn. by rewrite app_nil_r.
Qed.

Lemma log_blind_hget_location dev_id : log_blind (hget_last_location_data dev_id).
Proof.
  intros rd st. exists rd, st, [], (Ok (rd !! dev_id ≫= last_location_data)).
  intros l. unfold hget_last_location_data. cbn. by rewrite app_nil_r.
Qed.

Lemma log_blind_send dev_id serial packet : log_blind (send_to_main_server dev_id serial packet).
Proof.
  intros rd st. exists rd, (st ++ [(dev_id, serial, packet)]), [], (Ok tt).
  intros l. unfold send_to_main_server. cbn. by rewrite app_nil_r.
Qed.

Create HintDb blind.
#[local] Hint Resolve log_blind_ret log_blind_liftM log_blind_log log_blind_hget_status
  log_blind_hget_location log_blind_send : blind.

Ltac blind :=
  repeat first
    [ progress auto with blind
    | apply log_blind_bind; [|intros ?]
    | match goal with
      | |- log_blind (if ?c then _ else _) => destruct c
      | |- log_blind (match ?x with _ => _ end) => destruct x
      end ].

Lemma log_blind_build_suntech_packet hdr dev_id location serial rt alert_id geo :
  log_blind (build_suntech_packet hdr dev_id location serial rt alert_id geo).
Proof. unfold build_suntech_packet. cbv zeta. blind. Qed.

Lemma log_blind_handle_alarm_decoded now dev_id serial body loc :
  log_blind (handle_alarm_decoded now dev_id serial body loc).
Proof.
  unfold handle_alarm_decoded. cbv zeta.
  pose proof log_blind_build_suntech_packet. blind.
Qed.
Lemma later_than_self ts : later_than_minus_minutes ts ts 2 = true.
Proof. unfold later_than_minus_minutes. apply Z.ltb_lt. lia. Qed.

(** The handler at [now] is the handler at the frame's own time, which
    flags nothing, run after the flag of [now] has been logged. *)
Lemma handle_alarm_decoded_flag now dev_id serial body d ts w :
  timestamp d = Some (TDateTime ts) →
  handle_alarm_decoded now dev_id serial body (Some d) w
  = handle_alarm_decoded ts dev_id serial body (Some d)
      (add_logs (memory_flag (Some d) now dev_id) w).
Proof.
  intros Hts. unfold handle_alarm_decoded, memory_flag. unfold_M.
  cbn [mbind option_bind]. rewrite Hts. cbn [timestamp_truthy negb newer_than_limit].
  rewrite later_than_self. cbn [negb].
  destruct (later_than_minus_minutes ts now 2); cbn [negb]; [|reflexivity].
  unfold add_logs. rewrite app_nil_r. destruct w; reflexivity.
Qed.

(** When the timestamp is not a [datetime] the clock is not consulted. *)
Lemma handle_alarm_decoded_no_datetime now1 now2 dev_id serial body loc w :
  (∀ ts, loc ≫= timestamp ≠ Some (TDateTime ts)) →
  handle_alarm_decoded now1 dev_id serial body loc w
  = handle_alarm_decoded now2 dev_id serial body loc w.
Proof.
  intros Hno. unfold handle_alarm_decoded. unfold_M.
  destruct loc as [d|]; [|reflexivity]. cbn in Hno |- *.
  destruct (timestamp d) as [[ts|s]|]; [by destruct (Hno ts) | | reflexivity].
  cbn. destruct (str_truthy s); reflexivity.
Qed.
Lemma decode_location_slice16 body : decode_location (slice 0 16 body) = None.
Proof.
  rewrite decode_location_eq. unfold fixed_layout_ok.
  replace (18 <=? length (slice 0 16 body))%nat with false; [reflexivity|].
  symmetry. apply Nat.leb_gt. rewrite length_slice. lia.
Qed.

(** What [handle_alarm_packet] does with a body of 21 bytes or more: the
    16-byte slice never decodes, and [None] has no [get]. *)
Lemma handle_alarm_packet_long now dev_id serial body w :
  (21 ≤ length body)%nat →
  ∃ e, handle_alarm_packet now dev_id serial body w
       = (add_logs [(ERROR, MsgDecodeFailed (slice 0 16 body) e)] w, Raise AttributeError).
Proof.
  intros Hlen. unfold handle_alarm_packet.
  replace (length body <? 21)%nat with false by (symmetry; apply Nat.ltb_ge; lia).
  pose proof (decode_location_slice16 body) as Hnone.
  unfold decode_location in Hnone. unfold decode_location_packet. unfold_M.
  destruct (decode_fields (slice 0 16 body) empty_dict) as [d [data|e]]; [discriminate|].
  exists e. reflexivity.
Qed.

Lemma handle_alarm_packet_clock now1 now2 dev_id serial body w :
  handle_alarm_packet now1 dev_id serial body w = handle_alarm_packet now2 dev_id serial body w.
Proof.
  unfold handle_alarm_packet. destruct (length body <? 21)%nat; [reflexivity|].
  pose proof (decode_location_slice16 body) as Hnone.
  unfold decode_location in Hnone. unfold decode_location_packet. unfold_M.
  destruct (decode_fields (slice 0 16 body) empty_dict) as [d [data|e]]; [discriminate|].
  reflexivity.
Qed.

(** The statements that follow the decoder call (lines 128–165), run on a
    record the decoder might have returned: the staleness comparison only
    decides whether the frame is flagged in the log. For any two clock
    readings they return or raise the same, send the same packets and leave
    the same store; the logs differ by the flag alone, which is there
    exactly when the record's timestamp is not newer than the reading minus
    two minutes. [handle_alarm_packet] itself does not get that far. *)
Lemma staleness_only_flags now1 now2 dev_id serial body alarm_location_data w :
  let r1 := handle_alarm_decoded now1 dev_id serial body alarm_location_data w in
  let r2 := handle_alarm_decoded now2 dev_id serial body alarm_location_data w in
  r1.2 = r2.2
  ∧ sent r1.1 = sent r2.1
  ∧ redis r1.1 = redis r2.1
  ∧ (∃ rest,
       logs r1.1 = logs w ++ memory_flag alarm_location_data now1 dev_id ++ rest
       ∧ logs r2.1 = logs w ++ memory_flag alarm_location_data now2 dev_id ++ rest)
  ∧ handle_alarm_packet now1 dev_id serial body w
    = handle_alarm_packet now2 dev_id serial body w.
Proof.
  cbv zeta.
  split; [|split; [|split; [|split]]]; [| | | |apply handle_alarm_packet_clock].
  all: destruct (alarm_location_data ≫= timestamp) as [[ts|s]|] eqn:Hts.
  all: try (destruct alarm_location_data as [d|]; [|discriminate Hts]; cbn in Hts;
            rewrite !(handle_alarm_decoded_flag _ _ _ _ d ts w Hts);
            destruct (log_blind_handle_alarm_decoded ts dev_id serial body (Some d)
                        (redis w) (sent w)) as (rd & st & rest & r & Hrun);
            unfold add_logs; rewrite !Hrun; cbn [fst snd logs sent redis];
            first [reflexivity | exists rest; by rewrite !app_assoc]).
  all: try (rewrite (handle_alarm_decoded_no_datetime now1 now2) by (rewrite Hts; congruence);
            first [reflexivity | idtac]).
  all: unfold memory_flag; rewrite Hts; cbn [app].
  all: destruct (log_blind_handle_alarm_decoded now2 dev_id serial body alarm_location_data
                   (redis w) (sent w)) as (rd & st & rest & r & Hrun);
       exists rest; specialize (Hrun (logs w));
       destruct w; cbn [logs redis sent] in *; rewrite Hrun; done.
Qed.
(** A decoded alarm record one hour old is flagged and its ALT packet is
    sent all the same. *)
Example stale_alarm_still_sent :
  let fresh := handle_alarm_decoded sample_now sample_dev_id 5 (frame_alarm x06)
                 (Some frame_fix_record) located_world in
  let stale := handle_alarm_decoded sample_later sample_dev_id 5 (frame_alarm x06)
                 (Some frame_fix_record) located_world in
  memory_flag (Some frame_fix_record) sample_now sample_dev_id = []
  ∧ memory_flag (Some frame_fix_record) sample_later sample_dev_id
    = [(INFO, MsgAlarmFromMemory sample_dev_id)]
  ∧ sent stale.1 = sent fresh.1
  ∧ length (sent stale.1) = S (length (sent located_world))
  ∧ length (logs stale.1) = S (length (logs fresh.1)).
Proof. vm_compute. repeat split. Qed.

(** C3, on the code: a stale alarm frame is neither flagged nor processed.
    Whatever the clock reads, [handle_alarm_packet] on a body of 21 bytes or
    more raises [AttributeError] at the first read of the decoder's result,
    before the staleness comparison: the only log entry it adds is the
    decoder's failure, never the from-memory flag, and nothing is sent or
    stored. *)
Theorem stale_alarm_neither_flagged_nor_processed now dev_id serial body w :
  (21 ≤ length body)%nat →
  let r := handle_alarm_packet now dev_id serial body w in
  r.2 = Raise AttributeError
  ∧ (∃ e, logs r.1 = logs w ++ [(ERROR, MsgDecodeFailed (slice 0 16 body) e)])
  ∧ (In (INFO, MsgAlarmFromMemory dev_id) (logs r.1) →
     In (INFO, MsgAlarmFromMemory dev_id) (logs w))
  ∧ sent r.1 = sent w
  ∧ redis r.1 = redis w.
Proof.
  intros Hlen. cbv zeta.
  destruct (handle_alarm_packet_long now dev_id serial body w Hlen) as [e ->].
  cbn [fst snd add_logs logs sent redis].
  split; [reflexivity|]. split; [by exists e|]. split; [|done].
  intros [Hin|[Hin|[]]]%in_app_or; [exact Hin | discriminate Hin].
Qed.

Lemma stale_alarm_neither_flagged_nor_processed_witness :
  let r := handle_alarm_packet sample_later sample_dev_id 5 (frame_alarm x06) located_world in
  later_than_minus_minutes (frame_timestamp (frame_alarm x06)) sample_later 2 = false
  ∧ r.2 = Raise AttributeError
  ∧ ¬ In (INFO, MsgAlarmFromMemory sample_dev_id) (logs r.1)
  ∧ sent r.1 = sent located_world.
Proof.
  assert (21 ≤ length (frame_alarm x06))%nat as Hlen by (simpl; lia).
  pose proof (stale_alarm_neither_flagged_nor_processed sample_later sample_dev_id 5
                (frame_alarm x06) located_world Hlen) as (Hr & _ & Hflag & Hsent & _).
  cbv zeta. split; [reflexivity|]. split; [exact Hr|]. split; [|exact Hsent].
  intros Hin. apply Hflag in Hin. vm_compute in Hin.
  repeat (destruct Hin as [Hin|Hin]; [discriminate Hin|]). exact Hin.
Defined.

(** The location handler checks what the decoder returned before using
    it: an undecodable body is dropped with a log entry and no error. *)
Lemma location_undecodable_dropped dev_id serial body w :
  decode_location body = None →
  (handle_location_packet dev_id serial body w).2 = Ok tt
  ∧ sent (handle_location_packet dev_id serial body w).1 = sent w
  ∧ redis (handle_location_packet dev_id serial body w).1 = redis w.
Proof.
  intros Hnone. unfold decode_location in Hnone.
  unfold handle_location_packet, decode_location_packet. unfold_M.
  destruct (decode_fields body empty_dict) as [d [data|e]]; [discriminate|].
  cbn. done.
Qed.

(** C1, on the code: the first 16 bytes of an alarm body never decode,
    because the course-status word at bytes 16–17 is cut off; the decoder
    returns [None], and the handler, instead of dropping the frame, raises
    [AttributeError] to its caller. Nothing is sent. *)
Theorem alarm_frame_without_timestamp_raises now dev_id serial body w :
  (21 ≤ length body)%nat →
  let r := handle_alarm_packet now dev_id serial body w in
  decode_location (slice 0 16 body) = None
  ∧ r.2 = Raise AttributeError
  ∧ sent r.1 = sent w
  ∧ redis r.1 = redis w.
Proof.
  intros Hlen. cbv zeta.
  destruct (handle_alarm_packet_long now dev_id serial body w Hlen) as [e ->].
  split; [apply decode_location_slice16|]. done.
Qed.

Lemma alarm_frame_without_timestamp_raises_witness :
  (handle_alarm_packet sample_now sample_dev_id 5 (frame_alarm x06) located_world).2
  = Raise AttributeError.
Proof.
  assert (21 ≤ length (frame_alarm x06))%nat as Hlen by (simpl; lia).
  exact (proj1 (proj2 (alarm_frame_without_timestamp_raises sample_now sample_dev_id 5
                         (frame_alarm x06) located_world Hlen))).
Defined.

(** C2, on the code: an alarm frame for a device with no cached location
    is not dropped silently. The handler raises [AttributeError] as for
    every alarm frame; and had the frame decoded, reading the missing cache
    entry raises [TypeError] before the check for an empty record is
    reached. Nothing is sent either way. *)
Theorem alarm_without_cached_location_raises now dev_id serial body w d ts :
  redis w !! dev_id ≫= last_location_data = None →
  (21 ≤ length body)%nat →
  timestamp d = Some (TDateTime ts) →
  let r := handle_alarm_packet now dev_id serial body w in
  let r' := handle_alarm_decoded now dev_id serial body (Some d) w in
  r.2 = Raise AttributeError ∧ sent r.1 = sent w
  ∧ r'.2 = Raise TypeError ∧ sent r'.1 = sent w.
Proof.
  intros Hcache Hlen Hts. cbv zeta.
  destruct (handle_alarm_packet_long now dev_id serial body w Hlen) as [e ->].
  split; [reflexivity|]. split; [reflexivity|].
  unfold handle_alarm_decoded. unfold_M. cbn [mbind option_bind] in Hcache |- *.
  rewrite Hts. cbn [timestamp_truthy negb newer_than_limit].
  destruct (later_than_minus_minutes ts now 2); cbn [negb redis]; rewrite Hcache; done.
Qed.

Lemma alarm_without_cached_location_raises_witness :
  (handle_alarm_packet sample_now sample_dev_id 5 (frame_alarm x06) empty_world).2
  = Raise AttributeError
  ∧ (handle_alarm_decoded sample_now sample_dev_id 5 (frame_alarm x06)
       (Some frame_fix_record) empty_world).2 = Raise TypeError.
Proof.
  assert (21 ≤ length (frame_alarm x06))%nat as Hlen by (simpl; lia).
  pose proof (alarm_without_cached_location_raises sample_now sample_dev_id 5
                (frame_alarm x06) empty_world frame_fix_record _ eq_refl Hlen eq_refl)
    as (H1 & _ & H2 & _).
  split; [exact H1 | exact H2].
Defined.
(** The alarm code table, entry by entry. *)
Lemma alert_map_entries :
  map (dict_get VL01_TO_SUNTECH_ALERT_MAP)
    [0x01; 0x02; 0x03; 0x04; 0x05; 0x06; 0x19; 0xF0; 0xF1; 0x13; 0x14; 0xFE; 0xFF; 0x42]
  = [Some 42; Some 41; Some 15; Some 6; Some 5; Some 1; Some 14; Some 46; Some 47;
     Some 147; Some 73; Some 33; Some 34; None].
Proof. reflexivity. Qed.

(** What the statements after the decoding do with a decoded record and a
    cached location: a mapped code sends one ALT packet with the alert
    identifier and the realtime flag "1", an unmapped code logs a warning
    and sends nothing. *)
Example alarm_decoded_overspeed :
  let r := handle_alarm_decoded sample_now sample_dev_id 5 (frame_alarm x06)
             (Some frame_fix_record) located_world in
  r.2 = Ok tt
  ∧ sent r.1 = sent located_world ++
      [(sample_dev_id, 5,
        "ALT;4567890123;FFF83F;218;1.0.12;1;20240601;12:00:00;+90.000000;+45.000000;50.00;32.00;8;1;00000001;00000000;1;;;;00028003;12.43;0.0;12345;1")].
Proof. vm_compute. done. Qed.

Example alarm_decoded_unmapped :
  let r := handle_alarm_decoded sample_now sample_dev_id 5 (frame_alarm x42)
             (Some frame_fix_record) located_world in
  r.2 = Ok tt
  ∧ sent r.1 = sent located_world
  ∧ last (logs r.1) = Some (WARNING, MsgAlarmUnmapped sample_dev_id 0x42).
Proof. vm_compute. done. Qed.

(** C4, on the code: the handler never reaches the table. For an alarm
    frame with the mapped code 0x06 and a cached location it raises
    [AttributeError] and sends no ALT packet; for the unmapped code 0x42 it
    raises as well and logs no warning. *)
Theorem alarm_code_lookup_unreachable :
  let mapped := handle_alarm_packet sample_now sample_dev_id 5 (frame_alarm x06)
                  located_world in
  let unmapped := handle_alarm_packet sample_now sample_dev_id 5 (frame_alarm x42)
                    located_world in
  index (frame_alarm x06) 17 = Ok 0x06
  ∧ dict_get VL01_TO_SUNTECH_ALERT_MAP 0x06 = Some 1
  ∧ mapped.2 = Raise AttributeError
  ∧ sent mapped.1 = sent located_world
  ∧ index (frame_alarm x42) 17 = Ok 0x42
  ∧ dict_get VL01_TO_SUNTECH_ALERT_MAP 0x42 = None
  ∧ unmapped.2 = Raise AttributeError
  ∧ sent unmapped.1 = sent located_world
  ∧ List.filter is_warning (logs unmapped.1) = [].
Proof. vm_compute. repeat split. Qed.
(** ** The packets are ASCII text *)

Lemma all_ascii_app s t : all_ascii (s +:+ t) = all_ascii s && all_ascii t.
Proof.
  unfold all_ascii. induction s as [|c s IH]; [reflexivity|].
  simpl. rewrite IH. by rewrite andb_assoc.
Qed.

Lemma pretty_N_char_ascii x : is_ascii (pretty_N_char x) = true.
Proof. unfold pretty_N_char. by repeat case_match. Qed.

Lemma pretty_N_go_ascii x s : all_ascii s = true → all_ascii (pretty_N_go x s) = true.
Proof.
  revert s. induction (N.lt_wf_0 x) as [x _ IH]. intros s Hs.
  destruct (decide (x = 0%N)) as [->|Hx]; [by rewrite pretty_N_go_0|].
  rewrite pretty_N_go_step by lia. apply IH.
  - apply N.div_lt; lia.
  - unfold all_ascii. cbn [list_ascii_of_string forallb].
    rewrite pretty_N_char_ascii. exact Hs.
Qed.

Lemma pretty_N_ascii (x : N) : all_ascii (pretty x) = true.
Proof.
  unfold pretty, pretty_N. case_decide; [reflexivity|]. by apply pretty_N_go_ascii.
Qed.

Lemma pretty_Z_ascii (x : Z) : all_ascii (pretty x) = true.
Proof.
  destruct x as [|p|p]; [reflexivity| |].
  - apply (pretty_N_ascii (Npos p)).
  - change (pretty (Zneg p)) with ("-" +:+ pretty (Npos p)).
    rewrite all_ascii_app, pretty_N_ascii. reflexivity.
Qed.

Lemma all_ascii_zeros n : all_ascii (string_of_list_ascii (replicate n "0"%char)) = true.
Proof. unfold all_ascii. induction n as [|n IH]; [reflexivity|]. cbn. exact IH. Qed.

Lemma zero_pad_ascii width n : all_ascii (zero_pad width n) = true.
Proof. unfold zero_pad. by rewrite all_ascii_app, all_ascii_zeros, pretty_Z_ascii. Qed.

Lemma format_f_ascii prec f : all_ascii (format_f prec f) = true.
Proof.
  unfold format_f. cbv zeta. rewrite !all_ascii_app, pretty_Z_ascii.
  destruct (fneg f), (decide (prec = 0%nat)); cbn [andb];
    rewrite ?all_ascii_app, ?zero_pad_ascii; reflexivity.
Qed.

Lemma format_signed_ascii x : all_ascii (format_signed x) = true.
Proof.
  unfold format_signed. destruct (float_ge0 x);
    rewrite ?all_ascii_app, format_f_ascii; reflexivity.
Qed.

Lemma strftime_ascii d :
  all_ascii (strftime_Ymd d) = true ∧ all_ascii (strftime_HMS d) = true
  ∧ all_ascii (strftime_Y d) = true ∧ all_ascii (strftime_m d) = true
  ∧ all_ascii (strftime_d d) = true.
Proof.
  unfold strftime_Ymd, strftime_HMS, strftime_Y, strftime_m, strftime_d.
  rewrite !all_ascii_app, !zero_pad_ascii, !pretty_Z_ascii. done.
Qed.

Lemma join_ascii sep fields :
  all_ascii sep = true → forallb all_ascii fields = true → all_ascii (join sep fields) = true.
Proof.
  intros Hsep. unfold join. induction fields as [|x [|y rest] IH]; intros H.
  - reflexivity.
  - cbn in H |- *. by rewrite andb_true_r in H.
  - cbn [forallb] in H. apply andb_true_iff in H as [Hx H].
    cbn [String.concat]. rewrite !all_ascii_app, Hx, Hsep. cbn [andb]. by apply IH.
Qed.

(** ** The fields of a packet *)

Lemma no_semicolon_app s t : no_semicolon (s +:+ t) = no_semicolon s && no_semicolon t.
Proof.
  unfold no_semicolon. induction s as [|c s IH]; [reflexivity|].
  simpl. rewrite IH. by rewrite andb_assoc.
Qed.

Lemma split_fields_single s : no_semicolon s = true → split_fields s = [s].
Proof.
  unfold split_fields, no_semicolon. induction s as [|c s IH]; [reflexivity|].
  cbn [list_ascii_of_string forallb split_on]. intros [Hc Hs]%andb_true_iff.
  apply negb_true_iff in Hc. rewrite Hc, (IH Hs). reflexivity.
Qed.

Lemma split_fields_cons s t :
  no_semicolon s = true → split_fields (s +:+ ";" +:+ t) = s :: split_fields t.
Proof.
  unfold split_fields, no_semicolon. induction s as [|c s IH]; [reflexivity|].
  cbn [list_ascii_of_string forallb]. intros [Hc Hs]%andb_true_iff.
  apply negb_true_iff in Hc.
  change (String c s +:+ ";" +:+ t) with (String c (s +:+ ";" +:+ t)).
  cbn [split_on]. rewrite Hc, (IH Hs). reflexivity.
Qed.

(** A receiver that splits a packet reads back the fields it was joined
    from, as long as no field holds a separator. *)
Lemma split_fields_join fields :
  fields ≠ [] → forallb no_semicolon fields = true →
  split_fields (join ";" fields) = fields.
Proof.
  unfold join. induction fields as [|x [|y rest] IH]; intros Hne Hall; [done| |].
  - cbn in Hall |- *. rewrite andb_true_r in Hall. by apply split_fields_single.
  - cbn [forallb] in Hall. apply andb_true_iff in Hall as [Hx Hall].
    cbn [String.concat]. rewrite split_fields_cons by exact Hx.
    f_equal. by apply IH.
Qed.

Lemma pretty_N_char_no_semicolon x : negb (Ascii.eqb (pretty_N_char x) ";") = true.
Proof. unfold pretty_N_char. by repeat case_match. Qed.

Lemma pretty_N_go_no_semicolon x s :
  no_semicolon s = true → no_semicolon (pretty_N_go x s) = true.
Proof.
  revert s. induction (N.lt_wf_0 x) as [x _ IH]. intros s Hs.
  destruct (decide (x = 0%N)) as [->|Hx]; [by rewrite pretty_N_go_0|].
  rewrite pretty_N_go_step by lia. apply IH.
  - apply N.div_lt; lia.
  - unfold no_semicolon. cbn [list_ascii_of_string forallb].
    rewrite pretty_N_char_no_semicolon. exact Hs.
Qed.

Lemma pretty_N_no_semicolon (x : N) : no_semicolon (pretty x) = true.
Proof.
  unfold pretty, pretty_N. case_decide; [reflexivity|]. by apply pretty_N_go_no_semicolon.
Qed.

Lemma pretty_Z_no_semicolon (x : Z) : no_semicolon (pretty x) = true.
Proof.
  destruct x as [|p|p]; [reflexivity| |].
  - apply (pretty_N_no_semicolon (Npos p)).
  - change (pretty (Zneg p)) with ("-" +:+ pretty (Npos p)).
    rewrite no_semicolon_app, pretty_N_no_semicolon. reflexivity.
Qed.

Lemma zeros_no_semicolon n : no_semicolon (string_of_list_ascii (replicate n "0"%char)) = true.
Proof. unfold no_semicolon. induction n as [|n IH]; [reflexivity|]. cbn. exact IH. Qed.

Lemma zero_pad_no_semicolon width n : no_semicolon (zero_pad width n) = true.
Proof.
  unfold zero_pad. by rewrite no_semicolon_app, zeros_no_semicolon, pretty_Z_no_semicolon.
Qed.

Lemma format_f_no_semicolon prec f : no_semicolon (format_f prec f) = true.
Proof.
  unfold format_f. cbv zeta. rewrite !no_semicolon_app, pretty_Z_no_semicolon.
  destruct (fneg f), (decide (prec = 0%nat)); cbn [andb];
    rewrite ?no_semicolon_app, ?zero_pad_no_semicolon; reflexivity.
Qed.

Lemma format_signed_no_semicolon x : no_semicolon (format_signed x) = true.
Proof.
  unfold format_signed. destruct (float_ge0 x);
    rewrite ?no_semicolon_app, format_f_no_semicolon; reflexivity.
Qed.

Lemma strftime_no_semicolon d :
  no_semicolon (strftime_Ymd d) = true ∧ no_semicolon (strftime_HMS d) = true
  ∧ no_semicolon (strftime_Y d) = true ∧ no_semicolon (strftime_m d) = true
  ∧ no_semicolon (strftime_d d) = true.
Proof.
  unfold strftime_Ymd, strftime_HMS, strftime_Y, strftime_m, strftime_d.
  rewrite !no_semicolon_app, !zero_pad_no_semicolon, !pretty_Z_no_semicolon. done.
Qed.

Lemma normalize_dev_id_no_semicolon dev_id : no_semicolon (normalize_dev_id dev_id) = true.
Proof.
  pose proof (normalize_dev_id_digits dev_id) as Hd. unfold no_semicolon.
  rewrite forallb_forall in Hd |- *. intros c Hc. specialize (Hd c Hc).
  destruct (Ascii.eqb_spec c ";") as [->|]; [discriminate Hd | reflexivity].
Qed.

(** ** The builders: when they return and what they leave alone *)

Ltac builder_cases location :=
  destruct (timestamp location) as [[?ts|?s]|]; cbn;
  [ destruct (latitude location), (longitude location), (speed_kmh location),
      (direction location); cbn | | ].

(** X1: [build_suntech_packet] reads timestamp, latitude, longitude,
    speed and direction with [d[key]]: it raises [KeyError] when the
    timestamp is missing, [AttributeError] when the timestamp is the text
    of a cached copy, [KeyError] when one of the other four is missing, and
    returns otherwise, whatever else is missing. It touches neither the
    store nor the sender. *)
Theorem build_suntech_packet_errors hdr dev_id location serial rt alert_id geo w :
  let r := build_suntech_packet hdr dev_id location serial rt alert_id geo w in
  is_ok r.2 = has_required_keys location && has_datetime location
  ∧ (timestamp location = None → r.2 = Raise KeyError)
  ∧ (∀ s, timestamp location = Some (TString s) → r.2 = Raise AttributeError)
  ∧ (has_datetime location = true → has_required_keys location = false →
     r.2 = Raise KeyError)
  ∧ redis r.1 = redis w ∧ sent r.1 = sent w.
Proof.
  cbv zeta. unfold build_suntech_packet, has_required_keys, has_datetime, timestamp_of.
  unfold_M. cbn -[join filter_chars slice_from format_signed format_f pretty zero_pad
                  strftime_Ymd strftime_HMS].
  builder_cases location; repeat split; try done.
  by rewrite andb_false_r.
Qed.

(** The packet is ASCII text when the header, the digits of the device
    identifier and the cached output status are. *)
Lemma build_suntech_packet_ascii hdr dev_id location serial rt alert_id geo w p :
  (build_suntech_packet hdr dev_id location serial rt alert_id geo w).2 = Ok p →
  all_ascii hdr = true →
  all_ascii (normalize_dev_id dev_id) = true →
  opt_all_ascii (redis w !! dev_id ≫= last_output_status) = true →
  all_ascii p = true.
Proof.
  unfold build_suntech_packet, timestamp_of. unfold_M.
  cbn -[join filter_chars slice_from format_signed format_f pretty zero_pad
        strftime_Ymd strftime_HMS].
  builder_cases location; try discriminate.
  intros [= <-] Hhdr Hid Hst. unfold mbind in Hst.
  fold (normalize_dev_id dev_id).
  set (st := option_bind _ _ last_output_status (redis w !! dev_id)) in *.
  assert (all_ascii (if opt_str_truthy st then default "" st else "0") = true) as Hst'.
  { destruct st as [s0|]; [|reflexivity]. cbn. destruct (str_truthy s0); [exact Hst|reflexivity]. }
  destruct (strftime_ascii ts) as (HYmd & HHMS & _).
  apply join_ascii; [reflexivity|].
  destruct (String.eqb hdr "STT"); [|destruct (String.eqb hdr "ALT")];
    cbn [app forallb];
    rewrite ?all_ascii_app, ?Hhdr, ?Hid, ?HYmd, ?HHMS, ?Hst', ?format_signed_ascii,
      ?format_f_ascii, ?pretty_Z_ascii, ?zero_pad_ascii;
    cbn [andb]; subst st; unfold mbind, option_bind in *; rewrite ?Hst';
    destruct rt, alert_id as [a|], geo as [g|];
    repeat match goal with |- context [if ?c then _ else _] => destruct c end;
    cbn [from_option]; rewrite ?pretty_Z_ascii; reflexivity.
Qed.
Lemma zero_pad_4_length n : 0 <= n < 10000 → String.length (zero_pad 4 n) = 4%nat.
Proof.
  intros Hn.
  assert (forallb (λ k, (String.length (zero_pad 4 (Z.of_nat k)) =? 4)%nat) (seq 0 (Z.to_nat 10000)) = true)
    as Hall by (vm_compute; reflexivity).
  rewrite forallb_forall in Hall.
  specialize (Hall (Z.to_nat n)). rewrite Z2Nat.id in Hall by lia.
  apply Nat.eqb_eq, Hall, in_seq. lia.
Qed.

(** ** The location handler *)

Lemma str_truthy_app s t : str_truthy (s +:+ t) = str_truthy s || str_truthy t.
Proof. destruct s; [by destruct t|reflexivity]. Qed.

(** One run of the STT/ALT builder on a record with the keys it needs. *)
Lemma build_suntech_packet_run hdr dev_id location serial rt alert_id geo w :
  has_required_keys location = true →
  has_datetime location = true →
  ∃ p rest,
    build_suntech_packet hdr dev_id location serial rt alert_id geo w
    = (add_logs [(DEBUG, MsgBuilding hdr dev_id rt alert_id geo location);
                 (DEBUG, MsgBuilt p)] w, Ok p)
    ∧ p = hdr +:+ ";" +:+ normalize_dev_id dev_id +:+ ";FFF83F;218;1.0.12;"
          +:+ (if rt then "1" else "0") +:+ ";" +:+ rest
    ∧ str_truthy p = true.
Proof.
  unfold has_required_keys, has_datetime. intros Hreq Hdt.
  unfold build_suntech_packet, timestamp_of, add_logs. unfold_M.
  cbn -[join filter_chars slice_from format_signed format_f pretty zero_pad
        strftime_Ymd strftime_HMS Z.modulo].
  destruct (timestamp location) as [[ts|s]|]; try discriminate.
  destruct (latitude location), (longitude location), (speed_kmh location),
    (direction location); try discriminate.
  cbn -[join filter_chars slice_from format_signed format_f pretty zero_pad
        strftime_Ymd strftime_HMS Z.modulo].
  fold (normalize_dev_id dev_id). unfold join.
  destruct (String.eqb hdr "STT"); [|destruct (String.eqb hdr "ALT")];
    cbn [app String.concat];
    (eexists _, _; split; [rewrite <- app_assoc; reflexivity|]; split;
     [reflexivity | rewrite str_truthy_app, orb_comm; reflexivity]).
Qed.
Lemma decode_location_packet_some body d w :
  decode_location body = Some d → decode_location_packet body w = (w, Ok (Some d)).
Proof.
  unfold decode_location, decode_location_packet.
  destruct (decode_fields body empty_dict) as [d' [data|e]]; [|discriminate].
  by intros [= ->].
Qed.

Lemma decode_location_packet_none body w :
  decode_location body = None →
  ∃ e, decode_location_packet body w
       = (add_logs [(ERROR, MsgDecodeFailed body e)] w, Ok None).
Proof.
  unfold decode_location, decode_location_packet.
  destruct (decode_fields body empty_dict) as [d' [data|e]]; [discriminate|].
  intros _. by exists e.
Qed.

Lemma decoded_record_keys body d :
  decode_location body = Some d →
  timestamp d = Some (TDateTime (frame_timestamp body))
  ∧ has_required_keys d = true ∧ has_datetime d = true ∧ dict_is_empty d = false.
Proof.
  intros Hd. apply decode_location_fixed in Hd as [_ ->].
  destruct (decode_trailing_keeps body (gps_fixed_of body) (fixed_fields body))
    as (Ht & Hs & Hv & Hlat & Hlon & Hdir).
  unfold has_required_keys, has_datetime, dict_is_empty.
  destruct (decode_trailing body (gps_fixed_of body) (fixed_fields body)).1.
  cbn in *. subst. done.
Qed.

(** X3: a location frame whose fixed layout does not decode (fewer than
    18 bytes, or calendar values [datetime] refuses) is dropped by the
    location handler: one error entry is logged, nothing is cached, nothing
    is sent and the handler returns normally. *)
Theorem location_frame_malformed_dropped dev_id serial body w :
  fixed_layout_ok body = false →
  let r := handle_location_packet dev_id serial body w in
  r.2 = Ok tt ∧ redis r.1 = redis w ∧ sent r.1 = sent w
  ∧ ∃ e, logs r.1 = logs w ++ [(ERROR, MsgDecodeFailed body e)].
Proof.
  intros Hbad. cbv zeta.
  assert (decode_location body = None) as Hnone by (by rewrite decode_location_eq, Hbad).
  destruct (decode_location_packet_none body w Hnone) as [e He].
  unfold handle_location_packet. unfold mbind, M_bind. rewrite He.
  cbn. repeat split. by exists e.
Qed.

Lemma location_frame_malformed_dropped_witness :
  (handle_location_packet sample_dev_id 1 (take 17 frame_fix) empty_world).2 = Ok tt
  ∧ sent (handle_location_packet sample_dev_id 1 (take 17 frame_fix) empty_world).1 = [].
Proof.
  destruct (location_frame_malformed_dropped sample_dev_id 1 (take 17 frame_fix)
              empty_world eq_refl) as (H1 & _ & H2 & _).
  split; [exact H1 | exact H2].
Defined.

(** X4: a location frame whose fixed layout decodes is cached before
    anything is built or sent: whatever the handler does next, the store
    then holds for the device the decoded record with its timestamp
    replaced by the ISO text, the device's output status is kept, and
    no other device is touched. *)
Theorem location_frame_cached dev_id serial body w :
  fixed_layout_ok body = true →
  let r := handle_location_packet dev_id serial body w in
  ∃ d, decode_location body = Some d
    ∧ redis r.1 !! dev_id ≫= last_location_data
      = Some (set_timestamp (TString (strftime_iso (frame_timestamp body))) d)
    ∧ redis r.1 !! dev_id ≫= last_output_status = redis w !! dev_id ≫= last_output_status
    ∧ (∀ other, other ≠ dev_id → redis r.1 !! other = redis w !! other).
Proof.
  intros Hok. cbv zeta.
  destruct (decode_location body) as [d|] eqn:Hd;
    [|by rewrite decode_location_eq, Hok in Hd].
  exists d. split; [reflexivity|].
  destruct (decoded_record_keys body d Hd) as (Hts & Hreq & Hdt & Hne).
  unfold handle_location_packet. unfold mbind, M_bind.
  rewrite (decode_location_packet_some body d w Hd), Hne.
  unfold timestamp_of. rewrite Hts.
  unfold liftM, hset_last_location_data.
  set (w1 := mk_world _ _ _).
  destruct (build_suntech_packet_run "STT" dev_id d serial (default true (is_realtime d))
              None None w1 Hreq Hdt) as (p & rest & -> & _ & ->).
  assert (redis w1 !! dev_id ≫= last_location_data
          = Some (set_timestamp (TString (strftime_iso (frame_timestamp body))) d)
          ∧ redis w1 !! dev_id ≫= last_output_status
            = redis w !! dev_id ≫= last_output_status
          ∧ (∀ other, other ≠ dev_id → redis w1 !! other = redis w !! other)) as Hw1.
  { subst w1. cbn [redis]. rewrite lookup_insert_eq. repeat split.
    intros other Hne'. by rewrite lookup_insert_ne. }
  unfold log, send_to_main_server, add_logs.
  destruct (encode_ascii p); cbn [fst snd redis]; exact Hw1.
Qed.

Lemma location_frame_cached_witness :
  (redis located_world !! sample_dev_id ≫= last_location_data) ≫= timestamp
  = Some (TString "2024-06-01T12:00:00").
Proof.
  destruct (location_frame_cached sample_dev_id 10003 frame_full empty_world eq_refl)
    as (d & Hd & Hc & _).
  unfold located_world. rewrite Hc. injection Hd as <-. reflexivity.
Defined.
(** The fields of a packet the STT/ALT builder returns. *)
Lemma build_suntech_packet_fields hdr dev_id location serial rt alert_id geo w ts :
  timestamp location = Some (TDateTime ts) →
  has_required_keys location = true →
  ∃ fields,
    build_suntech_packet hdr dev_id location serial rt alert_id geo w
    = (add_logs [(DEBUG, MsgBuilding hdr dev_id rt alert_id geo location);
                 (DEBUG, MsgBuilt (join ";" fields))] w, Ok (join ";" fields))
    ∧ fields !! 0%nat = Some hdr
    ∧ fields !! 1%nat = Some (normalize_dev_id dev_id)
    ∧ fields !! 5%nat = Some (if rt then "1" else "0")
    ∧ fields !! 6%nat = Some (strftime_Ymd ts)
    ∧ fields !! 7%nat = Some (strftime_HMS ts)
    ∧ fields !! 15%nat
      = Some ("0000000" +:+
              match redis w !! dev_id ≫= last_output_status with
              | Some s => if str_truthy s then s else "0"
              | None => "0"
              end)
    ∧ (hdr = "STT" →
       length fields = 25%nat
       ∧ fields !! 16%nat
         = Some (if opt_str_truthy (redis w !! dev_id ≫= last_output_status)
                 then "0" else "1")
       ∧ fields !! 18%nat = Some (zero_pad 4 (serial mod 10000)))
    ∧ (hdr = "ALT" →
       length fields = 25%nat
       ∧ fields !! 16%nat = Some (from_option pretty "None" alert_id))
    ∧ (no_semicolon hdr = true →
       opt_no_semicolon (redis w !! dev_id ≫= last_output_status) = true →
       split_fields (join ";" fields) = fields).
Proof.
  unfold has_required_keys. intros Hts Hreq.
  unfold build_suntech_packet, timestamp_of, add_logs. unfold_M.
  cbn -[join filter_chars slice_from format_signed format_f pretty zero_pad
        strftime_Ymd strftime_HMS Z.modulo].
  rewrite Hts in *.
  destruct (latitude location), (longitude location), (speed_kmh location),
    (direction location); try discriminate.
  cbn -[join filter_chars slice_from format_signed format_f pretty zero_pad
        strftime_Ymd strftime_HMS Z.modulo].
  fold (normalize_dev_id dev_id).
  destruct (String.eqb_spec hdr "STT") as [->|Hstt];
    [|destruct (String.eqb_spec hdr "ALT") as [->|Halt]];
    (eexists; split; [rewrite <- app_assoc; reflexivity|]);
    cbn [app length lookup list_lookup];
    repeat split; try done.
  all: try (unfold mbind;
            destruct (option_bind _ _ last_output_status (redis w !! dev_id)) as [s0|];
            [cbn; by destruct (str_truthy s0) | reflexivity]).
  all: intros Hhdr Hst; apply split_fields_join; [discriminate|].
  all: unfold mbind in *;
    set (st := option_bind _ _ last_output_status (redis w !! dev_id)) in *.
  all: assert (no_semicolon (if opt_str_truthy st then default "" st else "0") = true)
         as Hst' by (destruct st as [s0|]; [cbn; by destruct (str_truthy s0)|reflexivity]).
  all: destruct (strftime_no_semicolon ts) as (HYmd & HHMS & _).
  all: cbn [forallb];
    rewrite ?no_semicolon_app, ?Hhdr, ?HYmd, ?HHMS, ?Hst', ?normalize_dev_id_no_semicolon,
      ?format_signed_no_semicolon, ?format_f_no_semicolon, ?pretty_Z_no_semicolon,
      ?zero_pad_no_semicolon;
    cbn [andb];
    destruct rt, alert_id as [a|], geo as [g|];
    repeat match goal with |- context [if ?c then _ else _] => destruct c end;
    cbn [from_option]; rewrite ?pretty_Z_no_semicolon; reflexivity.
Qed.

(** X2: on a record with the keys it needs, for a device whose cached
    output status holds no ";", the STT builder returns a packet that a
    receiver splits at ";" into exactly 25 fields: field 0 is "STT",
    field 1 the normalized identifier, field 18 the sequence, which is the
    serial reduced modulo 10000 and written with exactly four digits. Two
    serials that differ by a multiple of 10000 give the same packet. *)
Theorem stt_sequence_wraps dev_id location serial k rt alert_id geo w :
  has_required_keys location = true →
  has_datetime location = true →
  opt_no_semicolon (redis w !! dev_id ≫= last_output_status) = true →
  ∃ p,
    (build_suntech_packet "STT" dev_id location serial rt alert_id geo w).2 = Ok p
    ∧ length (split_fields p) = 25%nat
    ∧ split_fields p !! 0%nat = Some "STT"
    ∧ split_fields p !! 1%nat = Some (normalize_dev_id dev_id)
    ∧ split_fields p !! 18%nat = Some (zero_pad 4 (serial mod 10000))
    ∧ String.length (zero_pad 4 (serial mod 10000)) = 4%nat
    ∧ build_suntech_packet "STT" dev_id location (serial + 10000 * k) rt alert_id geo w
      = build_suntech_packet "STT" dev_id location serial rt alert_id geo w.
Proof.
  intros Hreq Hdt Hst.
  assert (∃ ts, timestamp location = Some (TDateTime ts)) as [ts Hts].
  { unfold has_datetime in Hdt. destruct (timestamp location) as [[ts|]|]; try discriminate.
    by exists ts. }
  destruct (build_suntech_packet_fields "STT" dev_id location serial rt alert_id geo w ts
              Hts Hreq) as (fields & Hrun & H0 & H1 & _ & _ & _ & _ & Hstt & _ & Hsplit).
  destruct (Hstt eq_refl) as (Hlen & _ & H18).
  assert (build_suntech_packet "STT" dev_id location (serial + 10000 * k) rt alert_id geo w
          = build_suntech_packet "STT" dev_id location serial rt alert_id geo w) as Hwrap.
  { unfold build_suntech_packet.
    replace ((serial + 10000 * k) mod 10000) with (serial mod 10000)
      by (rewrite Z.mul_comm, Z.mod_add by lia; reflexivity).
    reflexivity. }
  exists (join ";" fields). rewrite Hwrap, Hrun, (Hsplit eq_refl Hst).
  do 5 (split; [done|]).
  split; [apply zero_pad_4_length, Z.mod_pos_bound; lia | reflexivity].
Qed.

Lemma stt_sequence_wraps_witness :
  ∃ p,
    (build_suntech_packet "STT" sample_dev_id frame_fix_record 10003 true None None
       empty_world).2 = Ok p
    ∧ length (split_fields p) = 25%nat
    ∧ split_fields p !! 18%nat = Some "0003".
Proof.
  destruct (stt_sequence_wraps sample_dev_id frame_fix_record 10003 0 true None None
              empty_world eq_refl eq_refl eq_refl) as (p & Hp & Hlen & _ & _ & Hseq & _).
  exists p. split; [exact Hp|]. split; [exact Hlen | exact Hseq].
Defined.

(** One run of the location handler on a frame that decodes, for a device
    whose packets are ASCII. *)
Lemma handle_location_packet_fields dev_id serial body w :
  fixed_layout_ok body = true →
  all_ascii (normalize_dev_id dev_id) = true →
  opt_all_ascii (redis w !! dev_id ≫= last_output_status) = true →
  ∃ d fields,
    decode_location body = Some d
    ∧ (handle_location_packet dev_id serial body w).2 = Ok tt
    ∧ sent (handle_location_packet dev_id serial body w).1
      = sent w ++ [(dev_id, serial, join ";" fields)]
    ∧ length fields = 25%nat
    ∧ fields !! 0%nat = Some "STT"
    ∧ fields !! 1%nat = Some (normalize_dev_id dev_id)
    ∧ fields !! 5%nat = Some (if default true (is_realtime d) then "1" else "0")
    ∧ fields !! 6%nat = Some (strftime_Ymd (frame_timestamp body))
    ∧ fields !! 7%nat = Some (strftime_HMS (frame_timestamp body))
    ∧ fields !! 15%nat
      = Some ("0000000" +:+
              match redis w !! dev_id ≫= last_output_status with
              | Some s => if str_truthy s then s else "0"
              | None => "0"
              end)
    ∧ fields !! 16%nat
      = Some (if opt_str_truthy (redis w !! dev_id ≫= last_output_status)
              then "0" else "1")
    ∧ fields !! 18%nat = Some (zero_pad 4 (serial mod 10000))
    ∧ (opt_no_semicolon (redis w !! dev_id ≫= last_output_status) = true →
       split_fields (join ";" fields) = fields).
Proof.
  intros Hok Hid Hst.
  destruct (decode_location body) as [d|] eqn:Hd;
    [|by rewrite decode_location_eq, Hok in Hd].
  destruct (decoded_record_keys body d Hd) as (Hts & Hreq & Hdt & Hne).
  unfold handle_location_packet. unfold mbind, M_bind.
  rewrite (decode_location_packet_some body d w Hd), Hne.
  unfold timestamp_of. rewrite Hts.
  unfold liftM, hset_last_location_data.
  set (w1 := mk_world _ _ _).
  assert (redis w1 !! dev_id ≫= last_output_status
          = redis w !! dev_id ≫= last_output_status) as Hsame
    by (subst w1; cbn [redis]; by rewrite lookup_insert_eq).
  pose proof (build_suntech_packet_ascii "STT" dev_id d serial
                (default true (is_realtime d)) None None w1) as Hascii.
  destruct (build_suntech_packet_fields "STT" dev_id d serial
              (default true (is_realtime d)) None None w1 _ Hts Hreq)
    as (fields & Hrun & H0 & H1 & H5 & H6 & H7 & H15 & Hstt & _ & Hsplit).
  destruct (Hstt eq_refl) as (Hlen & H16 & H18).
  specialize (Hsplit eq_refl).
  rewrite Hsame in H15, H16, Hsplit.
  rewrite Hrun in Hascii |- *.
  assert (all_ascii (join ";" fields) = true) as Hpa.
  { apply Hascii; [reflexivity|reflexivity|exact Hid|]. by rewrite Hsame. }
  assert (str_truthy (join ";" fields) = true) as Htruthy.
  { destruct fields as [|f0 [|f1 fs]]; try discriminate.
    cbn in H0. injection H0 as ->. reflexivity. }
  rewrite Htruthy. unfold encode_ascii. fold (all_ascii (join ";" fields)). rewrite Hpa.
  exists d, fields. cbn [fst snd sent send_to_main_server log add_logs]. done.
Qed.

(** X5: for a location frame whose fixed layout decodes, a device
    identifier with ASCII digits and a cached output status that is ASCII
    without ";", the handler returns normally and sends exactly one packet:
    an STT packet that a receiver splits at ";" into exactly 25 fields,
    with the normalized identifier in field 1, the date and the time of
    bytes 0–5 of the frame in fields 6 and 7, and in field 5 the record's
    [is_realtime], or "1" when the frame is too short to carry one. *)
Theorem location_frame_reported dev_id serial body w :
  fixed_layout_ok body = true →
  all_ascii (normalize_dev_id dev_id) = true →
  opt_all_ascii (redis w !! dev_id ≫= last_output_status) = true →
  opt_no_semicolon (redis w !! dev_id ≫= last_output_status) = true →
  let r := handle_location_packet dev_id serial body w in
  r.2 = Ok tt
  ∧ ∃ d p,
      decode_location body = Some d
      ∧ sent r.1 = sent w ++ [(dev_id, serial, p)]
      ∧ length (split_fields p) = 25%nat
      ∧ split_fields p !! 0%nat = Some "STT"
      ∧ split_fields p !! 1%nat = Some (normalize_dev_id dev_id)
      ∧ split_fields p !! 5%nat = Some (if default true (is_realtime d) then "1" else "0")
      ∧ split_fields p !! 6%nat = Some (strftime_Ymd (frame_timestamp body))
      ∧ split_fields p !! 7%nat = Some (strftime_HMS (frame_timestamp body))
      ∧ split_fields p !! 18%nat = Some (zero_pad 4 (serial mod 10000)).
Proof.
  intros Hok Hid Hst Hsemi. cbv zeta.
  destruct (handle_location_packet_fields dev_id serial body w Hok Hid Hst)
    as (d & fields & Hd & Hr & Hsent & Hlen & H0 & H1 & H5 & H6 & H7 & _ & _ & H18 & Hsplit).
  split; [exact Hr|]. exists d, (join ";" fields). rewrite (Hsplit Hsemi). done.
Qed.

Lemma location_frame_reported_witness :
  (handle_location_packet sample_dev_id 10003 frame_fix empty_world).2 = Ok tt
  ∧ ∃ p, sent (handle_location_packet sample_dev_id 10003 frame_fix empty_world).1
         = [(sample_dev_id, 10003, p)]
         ∧ length (split_fields p) = 25%nat
         ∧ split_fields p !! 6%nat = Some "20240601"
         ∧ split_fields p !! 7%nat = Some "12:00:00"
         ∧ split_fields p !! 18%nat = Some "0003".
Proof.
  destruct (location_frame_reported sample_dev_id 10003 frame_fix empty_world
              eq_refl eq_refl eq_refl eq_refl)
    as (Hr & d & p & _ & Hsent & Hlen & _ & _ & _ & H6 & H7 & H18).
  split; [exact Hr|]. exists p. do 2 (split; [assumption|]).
  split; [exact H6|]. split; [exact H7 | exact H18].
Defined.

(** ** Heartbeat, then location *)





(** ** More about the decoder *)

Lemma fold_be_range (bs : bytes) acc :
  0 <= acc →
  0 <= fold_left (λ a b, a * 256 + byte_val b) bs acc < (acc + 1) * 256 ^ Z.of_nat (length bs).
Proof.
  revert acc. induction bs as [|b bs IH]; intros acc Hacc.
  - cbn. lia.
  - pose proof (byte_val_range b) as Hb.
    cbn [fold_left length]. specialize (IH (acc * 256 + byte_val b) ltac:(lia)).
    rewrite Nat2Z.inj_succ, Z.pow_succ_r by lia.
    assert (0 < 256 ^ Z.of_nat (length bs)) by (apply Z.pow_pos_nonneg; lia).
    nia.
Qed.

Lemma be_uint_range (bs : bytes) : 0 <= be_uint bs < 256 ^ Z.of_nat (length bs).
Proof. pose proof (fold_be_range bs 0 ltac:(lia)) as H. unfold be_uint. lia. Qed.

Lemma be_uint_slice_range a n (body : bytes) :
  0 <= be_uint (slice a (a + n) body) < 256 ^ Z.of_nat n.
Proof.
  pose proof (be_uint_range (slice a (a + n) body)) as H.
  assert (length (slice a (a + n) body) ≤ n)%nat by (rewrite length_slice; lia).
  assert (256 ^ Z.of_nat (length (slice a (a + n) body)) <= 256 ^ Z.of_nat n)
    by (apply Z.pow_le_mono_r; lia).
  lia.
Qed.

Lemma byte_at_range body i : 0 <= byte_at body i < 256.
Proof.
  unfold byte_at. destruct (body !! i) as [b|]; cbn; [apply byte_val_range|lia].
Qed.

Lemma days_in_month_le y m : days_in_month y m <= 31.
Proof. unfold days_in_month. repeat case_match; lia. Qed.

(** X7: every record the decoder returns keeps its fields within the
    ranges the byte layout allows: a valid calendar date of the years 2000
    to 2255, whose day is at most the number of days of its month in its
    year (no 31 February, and 29 February in leap years only), and a time
    of day; at most 15 satellites, a speed below 256, a direction below
    1024, coordinates of magnitude below 2^32/1800000 degrees, status bits
    0 to 3 and an odometer below 2^32. *)
Theorem decoded_fields_in_range body d :
  decode_location body = Some d →
  (∃ ts, timestamp d = Some (TDateTime ts)
     ∧ 2000 <= dt_year ts <= 2255 ∧ 1 <= dt_month ts <= 12
     ∧ 1 <= dt_day ts <= days_in_month (dt_year ts) (dt_month ts)
     ∧ dt_day ts <= 31
     ∧ valid_date (dt_year ts) (dt_month ts) (dt_day ts) = true
     ∧ valid_time (dt_hour ts) (dt_minute ts) (dt_second ts) = true
     ∧ 0 <= dt_hour ts <= 23 ∧ 0 <= dt_minute ts <= 59 ∧ 0 <= dt_second ts <= 59
     ∧ dt_microsecond ts = 0)
  ∧ (∃ n, satellites d = Some n ∧ 0 <= n <= 15)
  ∧ (∃ v, speed_kmh d = Some v ∧ 0 <= v <= 255)
  ∧ (∃ a, direction d = Some a ∧ 0 <= a <= 1023)
  ∧ (∃ la lo, latitude d = Some la ∧ longitude d = Some lo
       ∧ (0 <= fmag la)%Q ∧ (fmag la <= 4294967295 # 1800000)%Q
       ∧ (0 <= fmag lo)%Q ∧ (fmag lo <= 4294967295 # 1800000)%Q)
  ∧ (∀ s, status_bits d = Some s → 0 <= s <= 3)
  ∧ (∀ o, gps_odometer d = Some o → 0 <= o < 2 ^ 32).
Proof.
  intros Hd. apply decode_location_fixed in Hd as [Hok ->].
  destruct (decode_trailing_keeps body (gps_fixed_of body) (fixed_fields body))
    as (Ht & Hs & Hv & Hlat & Hlon & Hdir).
  destruct (decode_trailing_optional body (fixed_fields body) eq_refl eq_refl eq_refl)
    as (Hsb & Hrt & Hodo).
  rewrite Ht, Hs, Hv, Hlat, Hlon, Hdir, Hsb, Hodo. clear Ht Hs Hv Hlat Hlon Hdir Hsb Hrt Hodo.
  unfold fixed_layout_ok, timestamp_bytes_valid in Hok.
  apply andb_true_iff in Hok as [_ Hok].
  pose proof Hok as [Hdate Htime]%andb_true_iff.
  unfold valid_date, valid_time in Hok.
  repeat (apply andb_true_iff in Hok as [Hok ?]).
  unfold fixed_fields. cbn [timestamp satellites speed_kmh direction latitude longitude].
  pose proof (byte_at_range body 0). pose proof (byte_at_range body 6).
  pose proof (byte_at_range body 15).
  pose proof (days_in_month_le (2000 + byte_at body 0) (byte_at body 1)).
  split; [|split; [|split; [|split; [|split; [|split]]]]].
  - eexists. split; [reflexivity|].
    cbn [dt_year dt_month dt_day dt_hour dt_minute dt_second dt_microsecond].
    rewrite Hdate, Htime. repeat split; lia.
  - eexists. split; [reflexivity|].
    rewrite (Z.land_ones _ 4 ltac:(lia) : Z.land _ 15 = _).
    pose proof (Z.mod_pos_bound (byte_at body 6) (2 ^ 4) ltac:(lia)) as Hm.
    change (2 ^ 4) with 16 in *. lia.
  - eexists. split; [reflexivity|]. lia.
  - eexists. split; [reflexivity|].
    rewrite (Z.land_ones _ 10 ltac:(lia) : Z.land _ 1023 = _).
    pose proof (Z.mod_pos_bound (course_status_of body) (2 ^ 10) ltac:(lia)) as Hm.
    change (2 ^ 10) with 1024 in *. lia.
  - pose proof (be_uint_slice_range 7 4 body) as Hla.
    pose proof (be_uint_slice_range 11 4 body) as Hlo.
    change (be_uint (slice 7 (7 + 4) body)) with (lat_raw_of body) in Hla.
    change (be_uint (slice 11 (11 + 4) body)) with (lon_raw_of body) in Hlo.
    eexists _, _. split; [reflexivity|]. split; [reflexivity|].
    change (256 ^ Z.of_nat 4) with 4294967296 in *.
    destruct (Z.testbit _ 10), (Z.testbit _ 11);
      unfold Qle, float_abs, float_opp, float_div; cbn [fmag Qnum Qden]; lia.
  - intros s. case_decide; [|discriminate]. intros [= <-].
    unfold status_bits_at. repeat case_match; lia.
  - intros o. case_decide; [|discriminate]. intros [= <-].
    pose proof (be_uint_slice_range (acc_at_of body + 3) 4 body) as Ho.
    replace (acc_at_of body + 3 + 4)%nat with (acc_at_of body + 7)%nat in Ho by lia.
    change (256 ^ Z.of_nat 4) with 4294967296 in Ho. exact Ho.
Qed.

Lemma decoded_fields_in_range_witness :
  (∃ n, (decode_location frame_full ≫= satellites) = Some n ∧ 0 <= n <= 15)
  ∧ (∃ ts, (decode_location frame_full ≫= timestamp) = Some (TDateTime ts)
       ∧ 1 <= dt_day ts <= days_in_month (dt_year ts) (dt_month ts)).
Proof.
  destruct (decode_location frame_full) as [d|] eqn:Hd; [|discriminate Hd].
  destruct (decoded_fields_in_range frame_full d Hd)
    as ((ts & Hts & _ & _ & Hday & _) & (n & Hn & Hr) & _).
  split; [exists n; split; [exact Hn | exact Hr]|].
  exists ts. split; [exact Hts | exact Hday].
Defined.



Lemma byte_at_app_l (body extra : bytes) i :
  (i < length body)%nat → byte_at (body ++ extra) i = byte_at body i.
Proof. intros Hi. unfold byte_at. by rewrite lookup_app_l. Qed.

Lemma slice_app_l a b (body extra : bytes) :
  (b ≤ length body)%nat → slice a b (body ++ extra) = slice a b body.
Proof.
  intros Hb. unfold slice.
  destruct (decide (a ≤ b)%nat) as [Hab|Hab].
  - rewrite drop_app_le by lia. rewrite take_app_le; [reflexivity|].
    rewrite length_drop. lia.
  - replace (b - a)%nat with 0%nat by lia. reflexivity.
Qed.

(** X9: the decoder reads nothing after the odometer: bytes appended to
    a body that already reaches the end of the odometer do not change
    the record. *)
Theorem bytes_after_odometer_ignored (body extra : bytes) :
  (acc_at_of body + 7 ≤ length body)%nat →
  decode_location (body ++ extra) = decode_location body.
Proof.
  intros Hlen. pose proof (acc_at_of_range body) as Hacc.
  assert (mcc_of (body ++ extra) = mcc_of body) as Hmcc
    by (unfold mcc_of; by rewrite slice_app_l by lia).
  assert (acc_at_of (body ++ extra) = acc_at_of body) as Ha
    by (unfold acc_at_of, mnc_length_of; by rewrite Hmcc).
  assert (course_status_of (body ++ extra) = course_status_of body) as Hcs
    by (unfold course_status_of; by rewrite slice_app_l by lia).
  assert (fixed_layout_ok (body ++ extra) = fixed_layout_ok body) as Hok.
  { unfold fixed_layout_ok, timestamp_bytes_valid.
    rewrite !byte_at_app_l by lia. rewrite length_app.
    replace (18 <=? length body + length extra)%nat with true
      by (symmetry; apply Nat.leb_le; lia).
    replace (18 <=? length body)%nat with true by (symmetry; apply Nat.leb_le; lia).
    reflexivity. }
  assert (fixed_fields (body ++ extra) = fixed_fields body) as Hff.
  { unfold fixed_fields, lat_raw_of, lon_raw_of. rewrite Hcs.
    rewrite !byte_at_app_l by lia. by rewrite !slice_app_l by lia. }
  rewrite !decode_location_eq, Hok. destruct (fixed_layout_ok body); [|reflexivity].
  f_equal. unfold gps_fixed_of. rewrite Hcs, Hff.
  rewrite !decode_trailing_eq. cbv zeta. rewrite Ha, length_app.
  rewrite !byte_at_app_l by lia. rewrite slice_app_l by lia.
  repeat case_decide; try reflexivity; exfalso; lia.
Qed.

Lemma bytes_after_odometer_ignored_witness :
  decode_location (frame_full ++ [xff; xff]) = decode_location frame_full.
Proof.
  apply bytes_after_odometer_ignored. vm_compute. lia.
Defined.

(** ** Normalizing twice *)

Lemma filter_all {A} (f : A → bool) l : forallb f l = true → List.filter f l = l.
Proof.
  induction l as [|a l IH]; [reflexivity|]. cbn. intros H.
  apply andb_true_iff in H as [-> H]. by rewrite IH.
Qed.

Lemma normalize_fixed s :
  forallb isdigit (list_ascii_of_string s) = true →
  (String.length s ≤ 10)%nat →
  normalize_dev_id s = s.
Proof.
  intros Hd Hlen. rewrite normalize_dev_id_spec.
  unfold normalize_spec, digits_of, last_n. rewrite filter_all by exact Hd.
  rewrite <- (length_string_of_list_ascii (list_ascii_of_string s)),
    string_of_list_ascii_of_string.
  replace (String.length s - 10)%nat with 0%nat by lia.
  apply string_of_list_ascii_of_string.
Qed.

(** X10: normalizing a device identifier is idempotent, and an identifier
    of at most ten digits is left as it is; so a packet built from an
    already normalized identifier names the same device. *)
Theorem normalize_dev_id_idempotent (dev_id : string) :
  normalize_dev_id (normalize_dev_id dev_id) = normalize_dev_id dev_id
  ∧ (forallb isdigit (list_ascii_of_string dev_id) = true →
     (String.length dev_id ≤ 10)%nat → normalize_dev_id dev_id = dev_id)
  ∧ (∀ w, build_suntech_alv_packet (normalize_dev_id dev_id) w
          = build_suntech_alv_packet dev_id w).
Proof.
  assert (normalize_dev_id (normalize_dev_id dev_id) = normalize_dev_id dev_id) as Hidem
    by (apply normalize_fixed; [apply normalize_dev_id_digits | apply normalize_dev_id_length]).
  split; [exact Hidem|]. split; [apply normalize_fixed|].
  intros w. by rewrite !build_suntech_alv_packet_eq, Hidem.
Qed.

(** ** The RES builder *)

(** One run of the RES builder on a command with four parts and a record
    whose timestamp is not a text. *)
Lemma build_suntech_res_packet_fields now dev_id parts location w group action :
  parts !! 2%nat = Some group → parts !! 3%nat = Some action →
  has_text_timestamp location = false →
  ∃ fields,
    build_suntech_res_packet now dev_id parts location w
    = (add_logs [(INFO, MsgBuiltRES (join ";" fields))] w, Ok (join ";" fields))
    ∧ length fields = 21%nat
    ∧ fields !! 0%nat = Some "RES"
    ∧ fields !! 1%nat = Some (normalize_dev_id dev_id)
    ∧ fields !! 2%nat = Some group
    ∧ fields !! 3%nat = Some action
    ∧ fields !! 4%nat = Some (strftime_Y (res_time now location))
    ∧ fields !! 5%nat = Some (strftime_m (res_time now location))
    ∧ fields !! 6%nat = Some (strftime_d (res_time now location))
    ∧ fields !! 7%nat = Some (strftime_HMS (res_time now location))
    ∧ fields !! 20%nat = Some "0"
    ∧ str_truthy (join ";" fields) = true
    ∧ (all_ascii (normalize_dev_id dev_id) = true →
       opt_all_ascii (redis w !! dev_id ≫= last_output_status) = true →
       all_ascii group = true → all_ascii action = true →
       all_ascii (join ";" fields) = true)
    ∧ (no_semicolon group = true → no_semicolon action = true →
       opt_no_semicolon (redis w !! dev_id ≫= last_output_status) = true →
       split_fields (join ";" fields) = fields).
Proof.
  intros Hg Ha Hts.
  unfold build_suntech_res_packet, list_index, add_logs. unfold_M.
  cbn -[join filter_chars slice_from format_f pretty zero_pad
        strftime_Y strftime_m strftime_d strftime_HMS].
  rewrite Hg, Ha. fold (normalize_dev_id dev_id).
  set (ts := res_time now location).
  assert ((match timestamp location with
           | None => Ok now
           | Some (TDateTime t) => Ok t
           | Some (TString _) => Raise AttributeError
           end) = Ok ts) as ->.
  { subst ts. unfold res_time, has_text_timestamp in *.
    by destruct (timestamp location) as [[?|?]|]. }
  cbn -[join filter_chars slice_from format_f pretty zero_pad
        strftime_Y strftime_m strftime_d strftime_HMS].
  set (st := option_bind _ _ last_output_status (redis w !! dev_id)).
  change (redis w !! dev_id ≫= last_output_status) with st.
  eexists. split; [reflexivity|]. do 11 (split; [reflexivity|]).
  split.
  - intros Hid Hst Hgroup Haction.
    destruct (strftime_ascii ts) as (_ & HHMS & HY & Hm & Hd).
    assert (all_ascii (if opt_str_truthy st then default "" st else "0") = true) as Hst'.
    { destruct st as [s0|]; [|reflexivity]. cbn. destruct (str_truthy s0); [exact Hst|reflexivity]. }
    apply join_ascii; [reflexivity|].
    cbn [forallb].
    rewrite ?all_ascii_app, ?Hid, ?Hgroup, ?Haction, ?HHMS, ?HY, ?Hm, ?Hd, ?Hst',
      ?format_f_ascii, ?pretty_Z_ascii.
    repeat match goal with |- context [if ?c then _ else _] => destruct c end; reflexivity.
  - intros Hgroup Haction Hst.
    destruct (strftime_no_semicolon ts) as (_ & HHMS & HY & Hm & Hd).
    assert (no_semicolon (if opt_str_truthy st then default "" st else "0") = true) as Hst'.
    { destruct st as [s0|]; [|reflexivity]. cbn. destruct (str_truthy s0); [exact Hst|reflexivity]. }
    apply split_fields_join; [discriminate|].
    cbn [forallb].
    rewrite ?no_semicolon_app, ?normalize_dev_id_no_semicolon, ?Hgroup, ?Haction, ?HHMS,
      ?HY, ?Hm, ?Hd, ?Hst', ?format_f_no_semicolon, ?pretty_Z_no_semicolon.
    repeat match goal with |- context [if ?c then _ else _] => destruct c end; reflexivity.
Qed.

Lemma build_suntech_res_packet_pure now dev_id parts location w :
  redis (build_suntech_res_packet now dev_id parts location w).1 = redis w
  ∧ sent (build_suntech_res_packet now dev_id parts location w).1 = sent w.
Proof.
  unfold build_suntech_res_packet, list_index. unfold_M.
  destruct (parts !! 2%nat); [|done]. destruct (parts !! 3%nat); [|done].
  destruct (timestamp location) as [[?|?]|]; done.
Qed.

(** X11: [build_suntech_res_packet] raises [IndexError] when fewer than
    four command parts are given and [AttributeError] when the record's
    timestamp is the text of a cached copy; otherwise it returns, for any
    record, even an empty one. When the third and fourth command parts and
    the cached output status hold no ";", a receiver splits the packet at
    ";" into exactly 21 fields: "RES", the normalized identifier, the third
    and fourth command parts, then year, month, day and time of the record,
    or of the clock when the record has no timestamp; the last field is
    "0". The builder touches neither the store nor the sender. *)
Theorem res_packet_shape now dev_id parts location w :
  let r := build_suntech_res_packet now dev_id parts location w in
  redis r.1 = redis w ∧ sent r.1 = sent w
  ∧ ((length parts < 4)%nat → r.2 = Raise IndexError)
  ∧ ((4 ≤ length parts)%nat → has_text_timestamp location = true →
     r.2 = Raise AttributeError)
  ∧ ((4 ≤ length parts)%nat → has_text_timestamp location = false → is_ok r.2 = true)
  ∧ (∀ group action,
       parts !! 2%nat = Some group → parts !! 3%nat = Some action →
       has_text_timestamp location = false →
       no_semicolon group = true → no_semicolon action = true →
       opt_no_semicolon (redis w !! dev_id ≫= last_output_status) = true →
       ∃ p,
         r.2 = Ok p
         ∧ length (split_fields p) = 21%nat
         ∧ split_fields p !! 0%nat = Some "RES"
         ∧ split_fields p !! 1%nat = Some (normalize_dev_id dev_id)
         ∧ split_fields p !! 2%nat = Some group
         ∧ split_fields p !! 3%nat = Some action
         ∧ split_fields p !! 4%nat = Some (strftime_Y (res_time now location))
         ∧ split_fields p !! 5%nat = Some (strftime_m (res_time now location))
         ∧ split_fields p !! 6%nat = Some (strftime_d (res_time now location))
         ∧ split_fields p !! 7%nat = Some (strftime_HMS (res_time now location))
         ∧ split_fields p !! 20%nat = Some "0").
Proof.
  cbv zeta.
  split; [apply build_suntech_res_packet_pure|].
  split; [apply build_suntech_res_packet_pure|].
  split; [|split; [|split]].
  - intros Hlen. unfold build_suntech_res_packet, list_index. unfold_M.
    destruct (parts !! 2%nat) as [g|] eqn:H2; [|reflexivity].
    destruct (parts !! 3%nat) as [a|] eqn:H3; [|reflexivity].
    apply lookup_lt_Some in H3. lia.
  - intros Hlen Hts. unfold build_suntech_res_packet, list_index. unfold_M.
    destruct (lookup_lt_is_Some_2 parts 2 ltac:(lia)) as [g ->].
    destruct (lookup_lt_is_Some_2 parts 3 ltac:(lia)) as [a ->].
    unfold has_text_timestamp in Hts.
    by destruct (timestamp location) as [[?|?]|].
  - intros Hlen Hts.
    destruct (lookup_lt_is_Some_2 parts 2 ltac:(lia)) as [g Hg].
    destruct (lookup_lt_is_Some_2 parts 3 ltac:(lia)) as [a Ha].
    destruct (build_suntech_res_packet_fields now dev_id parts location w g a Hg Ha Hts)
      as (fields & -> & _). reflexivity.
  - intros group action Hg Ha Hts Hgroup Haction Hst.
    destruct (build_suntech_res_packet_fields now dev_id parts location w group action
                Hg Ha Hts)
      as (fields & -> & Hlen & H0 & H1 & H2 & H3 & H4 & H5 & H6 & H7 & H20 & _ & _ & Hsplit).
    exists (join ";" fields). rewrite (Hsplit Hgroup Haction Hst). done.
Qed.

Lemma res_packet_shape_witness :
  ∃ p, (build_suntech_res_packet sample_now sample_dev_id ["CMD"; sample_dev_id; "04"; "01"]
          empty_dict empty_world).2 = Ok p
       ∧ length (split_fields p) = 21%nat
       ∧ split_fields p !! 3%nat = Some "01"
       ∧ split_fields p !! 4%nat = Some "2024"
       ∧ split_fields p !! 7%nat = Some "12:01:00".
Proof.
  pose proof (res_packet_shape sample_now sample_dev_id ["CMD"; sample_dev_id; "04"; "01"]
                empty_dict empty_world) as (_ & _ & _ & _ & _ & Hshape).
  destruct (Hshape "04" "01" eq_refl eq_refl eq_refl eq_refl eq_refl eq_refl)
    as (p & Hp & Hlen & _ & _ & _ & H3 & H4 & _ & _ & H7 & _).
  exists p. split; [exact Hp|]. split; [exact Hlen|].
  split; [exact H3|]. split; [exact H4 | exact H7].
Defined.

(** ** More about the alarm handler *)

(** X12: an alarm frame of fewer than 21 bytes is dropped with one info
    entry and no error; and whatever the body, the alarm handler sends
    nothing, leaves the store as it was and logs exactly one entry. *)
Theorem alarm_handler_never_sends now dev_id serial body w :
  let r := handle_alarm_packet now dev_id serial body w in
  sent r.1 = sent w ∧ redis r.1 = redis w
  ∧ length (logs r.1) = S (length (logs w))
  ∧ r.2 = (if (length body <? 21)%nat then Ok tt else Raise AttributeError)
  ∧ ((length body < 21)%nat → logs r.1 = logs w ++ [(INFO, MsgAlarmTooShort body)]).
Proof.
  cbv zeta. destruct (length body <? 21)%nat eqn:Hlen.
  - unfold handle_alarm_packet. rewrite Hlen. cbn. rewrite length_app. cbn.
    repeat split; lia.
  - apply Nat.ltb_ge in Hlen.
    destruct (handle_alarm_packet_long now dev_id serial body w Hlen) as [e ->].
    cbn. rewrite length_app. cbn. repeat split; lia.
Qed.

Lemma alert_ids_nonzero code alert_id :
  dict_get VL01_TO_SUNTECH_ALERT_MAP code = Some alert_id → int_truthy alert_id = true.
Proof.
  unfold VL01_TO_SUNTECH_ALERT_MAP. cbn [dict_get].
  repeat (case_match; [by intros [= <-]|]). discriminate.
Qed.

Lemma dict_merge_keys c d ts :
  timestamp d = Some (TDateTime ts) →
  timestamp (dict_merge c d) = Some (TDateTime ts) ∧ dict_is_empty (dict_merge c d) = false.
Proof. intros H. unfold dict_merge, dict_is_empty. cbn. by rewrite H. Qed.

(** The statements that follow the decoder call (lines 128–165), which a
    call of [handle_alarm_packet] never reaches, run on a decoded alarm
    record with its [datetime], a cached location that together with it
    supplies latitude, longitude, speed and direction, and text that is
    ASCII without ";": a code of the table sends exactly one ALT packet,
    which splits at ";" into 25 fields, with realtime flag "1", the
    table's alert identifier, and the date and time of the alarm record,
    not of the cached one; any other code sends nothing and ends with a
    warning. The store is not changed. *)
Lemma alarm_decoded_translates now dev_id serial body w d cached ts code :
  timestamp d = Some (TDateTime ts) →
  redis w !! dev_id ≫= last_location_data = Some cached →
  has_required_keys (dict_merge cached d) = true →
  index body 17 = Ok code →
  all_ascii (normalize_dev_id dev_id) = true →
  opt_all_ascii (redis w !! dev_id ≫= last_output_status) = true →
  opt_no_semicolon (redis w !! dev_id ≫= last_output_status) = true →
  let r := handle_alarm_decoded now dev_id serial body (Some d) w in
  r.2 = Ok tt ∧ redis r.1 = redis w
  ∧ match dict_get VL01_TO_SUNTECH_ALERT_MAP code with
    | Some alert_id =>
        ∃ p,
          sent r.1 = sent w ++ [(dev_id, serial, p)]
          ∧ length (split_fields p) = 25%nat
          ∧ split_fields p !! 0%nat = Some "ALT"
          ∧ split_fields p !! 1%nat = Some (normalize_dev_id dev_id)
          ∧ split_fields p !! 5%nat = Some "1"
          ∧ split_fields p !! 6%nat = Some (strftime_Ymd ts)
          ∧ split_fields p !! 7%nat = Some (strftime_HMS ts)
          ∧ split_fields p !! 16%nat = Some (pretty alert_id)
    | None =>
        sent r.1 = sent w
        ∧ last (logs r.1) = Some (WARNING, MsgAlarmUnmapped dev_id code)
    end.
Proof.
  intros Hts Hcache Hreq Hcode Hid Hst Hsemi. cbv zeta.
  destruct (dict_merge_keys cached d ts Hts) as [Hmts Hne].
  rewrite (handle_alarm_decoded_flag now dev_id serial body d ts w Hts).
  set (w1 := add_logs _ w).
  assert (redis w1 = redis w ∧ sent w1 = sent w) as [Hrd1 Hst1] by done.
  rewrite <- Hrd1 in Hcache, Hst, Hsemi. rewrite <- Hrd1, <- Hst1. clearbody w1.
  unfold handle_alarm_decoded. unfold_M.
  rewrite Hts. cbn [timestamp_truthy negb newer_than_limit].
  rewrite later_than_self. cbn [negb]. rewrite Hcache. cbn [json_loads].
  rewrite Hne, Hcode.
  destruct (dict_get VL01_TO_SUNTECH_ALERT_MAP code) as [alert_id|] eqn:Hget.
  - rewrite (alert_ids_nonzero code alert_id Hget).
    set (w2 := mk_world _ _ _).
    pose proof (build_suntech_packet_ascii "ALT" dev_id (dict_merge cached d) serial true
                  (Some alert_id) None w2) as Hascii.
    destruct (build_suntech_packet_fields "ALT" dev_id (dict_merge cached d) serial true
                (Some alert_id) None w2 ts Hmts Hreq)
      as (fields & Hrun & H0 & H1 & H5 & H6 & H7 & _ & _ & Halt & Hsplit).
    destruct (Halt eq_refl) as (Hlen & H16).
    specialize (Hsplit eq_refl Hsemi).
    rewrite Hrun in Hascii |- *.
    assert (all_ascii (join ";" fields) = true) as Hpa
      by (apply Hascii; [reflexivity|reflexivity|exact Hid|exact Hst]).
    assert (str_truthy (join ";" fields) = true) as Htruthy.
    { destruct fields as [|f0 [|f1 fs]]; try discriminate.
      cbn in H0. injection H0 as ->. reflexivity. }
    rewrite Htruthy. unfold encode_ascii. fold (all_ascii (join ";" fields)). rewrite Hpa.
    cbn [fst snd sent redis add_logs w2].
    split; [reflexivity|]. split; [reflexivity|]. exists (join ";" fields).
    rewrite Hsplit. done.
  - cbn [fst snd sent redis logs].
    split; [reflexivity|]. split; [reflexivity|]. split; [reflexivity|].
    by rewrite last_snoc.
Qed.

Example alarm_decoded_translates_sample :
  (handle_alarm_decoded sample_now sample_dev_id 5 (frame_alarm x06)
     (Some frame_fix_record) located_world).2 = Ok tt.
Proof.
  exact (proj1 (alarm_decoded_translates sample_now sample_dev_id 5 (frame_alarm x06)
                  located_world frame_fix_record _ _ 6
                  eq_refl eq_refl eq_refl eq_refl eq_refl eq_refl eq_refl)).
Qed.

(** ** The command-reply handler *)

Ltac unfold_MR :=
  unfold mbind, MR_bind, mret, MR_ret, lift_world, emit, try_except.

(** One run of the handler on a relay command for a device with a cached
    location: the RES packet is built, and is sent when it encodes in
    ASCII; when it does not, the encoding error ends in the error entry. *)
Lemma reply_relay_run now now_local dev_id serial body st cached action fields :
  let command := decode_ascii_ignore (slice 5 (length body - 4) body) in
  command = "RELAY 1" ∧ action = "01" ∨ command = "RELAY 0" ∧ action = "02" →
  redis (rs_world st) !! dev_id ≫= last_location_data = Some cached →
  build_suntech_res_packet now_local dev_id ["CMD"; dev_id; "04"; action]
    (set_timestamp (TDateTime now) cached) (rs_world st)
  = (add_logs [(INFO, MsgBuiltRES (join ";" fields))] (rs_world st), Ok (join ";" fields)) →
  str_truthy (join ";" fields) = true →
  handle_reply_command_packet now now_local dev_id serial body st
  = if all_ascii (join ";" fields)
    then (mk_reply_state
            (mk_world (redis (rs_world st))
               (logs (rs_world st) ++ [(INFO, MsgBuiltRES (join ";" fields))])
               (sent (rs_world st) ++ [(dev_id, serial, join ";" fields)]))
            (rs_out st), Ok tt)
    else (mk_reply_state
            (add_logs [(INFO, MsgBuiltRES (join ";" fields))] (rs_world st))
            (rs_out st ++ [ErrorLogged]), Ok tt).
Proof.
  cbv zeta. intros Hcmd Hcache Hrun Htruthy.
  unfold handle_reply_command_packet. cbv zeta.
  destruct st as [w out]. cbn [rs_world rs_out] in *.
  unfold_MR. unfold hget_last_location_data, liftM. cbn [rs_world rs_out].
  destruct Hcmd as [[-> ->]|[-> ->]];
    cbn [String.eqb Ascii.eqb Bool.eqb andb str_truthy];
    cbv beta iota; cbn [rs_world rs_out]; rewrite Hcache; cbn [json_loads];
    rewrite Hrun; cbn [rs_world rs_out]; rewrite Htruthy;
    unfold encode_ascii; fold (all_ascii (join ";" fields));
    destruct (all_ascii (join ";" fields));
    unfold send_to_main_server; reflexivity.
Qed.

(** X14: the command-reply handler never raises and never writes to the
    store, whatever the body and the state. A body without command text
    does nothing; a body with command text has exactly one outcome: one
    packet sent, the command printed, or the handler's error entry, which
    is where every exception ends. A missing cached location ends in the
    error entry; a relay command for a device with a cached location sends
    the RES packet the builder returns when that packet encodes in ASCII,
    and ends in the error entry, with nothing sent, when it does not. *)
Theorem reply_handler_never_raises now now_local dev_id serial body st :
  let command := decode_ascii_ignore (slice 5 (length body - 4) body) in
  let cache := redis (rs_world st) !! dev_id ≫= last_location_data in
  let r := handle_reply_command_packet now now_local dev_id serial body st in
  r.2 = Ok tt
  ∧ redis (rs_world r.1) = redis (rs_world st)
  ∧ ∃ extra out,
      sent (rs_world r.1) = sent (rs_world st) ++ extra
      ∧ rs_out r.1 = rs_out st ++ out
      ∧ (length extra + length out)%nat = (if str_truthy command then 1 else 0)%nat
      ∧ (out = [] ∨ out = [Printed command] ∨ out = [ErrorLogged])
      ∧ (str_truthy command = true → cache = None → extra = [] ∧ out = [ErrorLogged])
      ∧ (∀ cached action,
           cache = Some cached →
           command = "RELAY 1" ∧ action = "01" ∨ command = "RELAY 0" ∧ action = "02" →
           ∃ p, (build_suntech_res_packet now_local dev_id ["CMD"; dev_id; "04"; action]
                   (set_timestamp (TDateTime now) cached) (rs_world st)).2 = Ok p
                ∧ if all_ascii p then extra = [(dev_id, serial, p)] ∧ out = []
                  else extra = [] ∧ out = [ErrorLogged])
      ∧ (∀ cached,
           cache = Some cached → str_truthy command = true →
           command ≠ "RELAY 1" → command ≠ "RELAY 0" →
           extra = [] ∧ out = [Printed command]).
Proof.
  cbv zeta.
  set (command := decode_ascii_ignore _).
  destruct (str_truthy command) eqn:Htruthy.
  2: { assert (handle_reply_command_packet now now_local dev_id serial body st = (st, Ok tt))
         as ->.
       { unfold handle_reply_command_packet. cbv zeta. fold command. by rewrite Htruthy. }
       cbn [fst snd]. split; [reflexivity|]. split; [reflexivity|].
       exists [], []. rewrite !app_nil_r. repeat split; try done; [by left|].
       intros cached action _ [[Hc _]|[Hc _]]; rewrite Hc in Htruthy; discriminate. }
  destruct (redis (rs_world st) !! dev_id ≫= last_location_data) as [cached|] eqn:Hcache.
  2: { assert (handle_reply_command_packet now now_local dev_id serial body st
               = (mk_reply_state (rs_world st) (rs_out st ++ [ErrorLogged]), Ok tt)) as ->.
       { unfold handle_reply_command_packet. cbv zeta. fold command. rewrite Htruthy.
         unfold_MR. unfold hget_last_location_data, liftM. cbn [rs_world rs_out].
         rewrite Hcache. reflexivity. }
       cbn [fst snd rs_world rs_out]. split; [reflexivity|]. split; [reflexivity|].
       exists [], [ErrorLogged]. rewrite app_nil_r.
       repeat split; try done; [by right; right]. }
  destruct (String.eqb_spec command "RELAY 1") as [H1|H1];
    [|destruct (String.eqb_spec command "RELAY 0") as [H0|H0]].
  1: assert (command = "RELAY 1" ∧ "01" = "01" ∨ command = "RELAY 0" ∧ "01" = "02")
       as Hrelay by (by left).
  2: assert (command = "RELAY 1" ∧ "02" = "01" ∨ command = "RELAY 0" ∧ "02" = "02")
       as Hrelay by (by right).
  1, 2: match type of Hrelay with _ ∧ ?a = _ ∨ _ => set (action := a) in * end;
        destruct (build_suntech_res_packet_fields now_local dev_id
                    ["CMD"; dev_id; "04"; action] (set_timestamp (TDateTime now) cached)
                    (rs_world st) "04" action eq_refl eq_refl eq_refl)
          as (fields & Hrun & _ & _ & _ & _ & _ & _ & _ & _ & _ & _ & Hpt & _);
        rewrite (reply_relay_run now now_local dev_id serial body st cached action fields
                   Hrelay Hcache Hrun Hpt);
        destruct (all_ascii (join ";" fields)) eqn:Hascii;
        cbn [fst snd rs_world rs_out redis sent add_logs];
        (split; [reflexivity|]; split; [reflexivity|]);
        [ exists [(dev_id, serial, join ";" fields)], []
        | exists [], [ErrorLogged] ];
        rewrite ?app_nil_r;
        (split; [reflexivity|]; split; [reflexivity|]; split; [reflexivity|];
         split; [auto|]; split; [done|]; split; [|intros; congruence]);
        intros cached' action' [= <-] Hrelay';
        (assert (action' = action) as ->
           by (subst action; destruct Hrelay' as [[? ->]|[? ->]]; congruence));
        exists (join ";" fields); rewrite Hrun, Hascii; done.
  assert (handle_reply_command_packet now now_local dev_id serial body st
          = (mk_reply_state (rs_world st) (rs_out st ++ [Printed command]), Ok tt)) as ->.
  { unfold handle_reply_command_packet. cbv zeta. fold command. rewrite Htruthy.
    apply String.eqb_neq in H1, H0. rewrite H1, H0.
    unfold_MR. unfold hget_last_location_data, liftM. cbn [rs_world rs_out].
    rewrite Hcache. reflexivity. }
  cbn [fst snd rs_world rs_out]. split; [reflexivity|]. split; [reflexivity|].
  exists [], [Printed command]. rewrite app_nil_r.
  repeat split; try done; [by right; left|].
  intros cached' action' _ [[Hc _]|[Hc _]]; congruence.
Qed.

Lemma reply_handler_never_raises_witness :
  let r := handle_reply_command_packet sample_now sample_now superscript_dev_id 9
             (reply_body "RELAY 1") (reply_start superscript_world) in
  r.2 = Ok tt
  ∧ rs_out r.1 = rs_out (reply_start superscript_world) ++ [ErrorLogged]
  ∧ sent (rs_world r.1) = sent (rs_world (reply_start superscript_world)) ++ [].
Proof.
  cbv zeta.
  destruct (reply_handler_never_raises sample_now sample_now superscript_dev_id 9
              (reply_body "RELAY 1") (reply_start superscript_world))
    as (Hr & _ & extra & out & Hsent & Hout & _ & _ & _ & Hrelay & _).
  assert (redis (rs_world (reply_start superscript_world)) !! superscript_dev_id
            ≫= last_location_data = Some frame_fix_record) as Hcache
    by (vm_compute; reflexivity).
  assert (decode_ascii_ignore (slice 5 (length (reply_body "RELAY 1") - 4)
                                 (reply_body "RELAY 1")) = "RELAY 1") as Hcmd
    by (vm_compute; reflexivity).
  destruct (Hrelay frame_fix_record "01" Hcache (or_introl (conj Hcmd eq_refl)))
    as (p & Hp & Hcase).
  vm_compute in Hp. injection Hp as <-. vm_compute in Hcase. destruct Hcase as [-> ->].
  split; [exact Hr|]. split; [exact Hout | exact Hsent].
Defined.

(** X15: a reply body of nine bytes or fewer has no command text, and so
    has a body whose command bytes are all outside ASCII; the handler then
    does nothing at all: no packet, no log entry, no output, no error. *)
Theorem reply_without_command_ignored now now_local dev_id serial body st :
  ((length body ≤ 9)%nat → decode_ascii_ignore (slice 5 (length body - 4) body) = "")
  ∧ (forallb (λ b, 128 <=? byte_val b) (slice 5 (length body - 4) body) = true →
     decode_ascii_ignore (slice 5 (length body - 4) body) = "")
  ∧ (decode_ascii_ignore (slice 5 (length body - 4) body) = "" →
     handle_reply_command_packet now now_local dev_id serial body st = (st, Ok tt)).
Proof.
  split; [|split].
  - intros Hlen. unfold slice. replace (length body - 4 - 5)%nat with 0%nat by lia.
    reflexivity.
  - generalize (slice 5 (length body - 4) body). intros bs Hall.
    unfold decode_ascii_ignore. induction bs as [|b bs IH]; [reflexivity|].
    cbn in Hall |- *. apply andb_true_iff in Hall as [Hb Hall].
    replace (byte_val b <? 128) with false by (symmetry; apply Z.ltb_ge; lia).
    by apply IH.
  - intros Hcmd. unfold handle_reply_command_packet. cbv zeta. rewrite Hcmd.
    reflexivity.
Qed.

(** X16: a reply whose command text is exactly "RELAY 1" or "RELAY 0",
    for a device with a cached location, ASCII digits in its identifier
    and a cached output status that is ASCII without ";", sends exactly one
    RES packet, which a receiver splits at ";" into exactly 21 fields, with
    group "04" and action "01" for "RELAY 1", "02" for "RELAY 0", dated
    with the clock at the reply and not with the cached timestamp; nothing
    is printed and no error is logged. *)
Theorem reply_relay_sends_res now now_local dev_id serial body st cached (on : bool) :
  decode_ascii_ignore (slice 5 (length body - 4) body)
    = (if on then "RELAY 1" else "RELAY 0") →
  redis (rs_world st) !! dev_id ≫= last_location_data = Some cached →
  all_ascii (normalize_dev_id dev_id) = true →
  opt_all_ascii (redis (rs_world st) !! dev_id ≫= last_output_status) = true →
  opt_no_semicolon (redis (rs_world st) !! dev_id ≫= last_output_status) = true →
  let r := handle_reply_command_packet now now_local dev_id serial body st in
  r.2 = Ok tt ∧ rs_out r.1 = rs_out st
  ∧ ∃ p,
      sent (rs_world r.1) = sent (rs_world st) ++ [(dev_id, serial, p)]
      ∧ length (split_fields p) = 21%nat
      ∧ split_fields p !! 0%nat = Some "RES"
      ∧ split_fields p !! 1%nat = Some (normalize_dev_id dev_id)
      ∧ split_fields p !! 2%nat = Some "04"
      ∧ split_fields p !! 3%nat = Some (if on then "01" else "02")
      ∧ split_fields p !! 4%nat = Some (strftime_Y now)
      ∧ split_fields p !! 5%nat = Some (strftime_m now)
      ∧ split_fields p !! 6%nat = Some (strftime_d now)
      ∧ split_fields p !! 7%nat = Some (strftime_HMS now).
Proof.
  intros Hcmd Hcache Hid Hst Hsemi. cbv zeta.
  set (action := if on then "01" else "02").
  assert (decode_ascii_ignore (slice 5 (length body - 4) body) = "RELAY 1" ∧ action = "01"
          ∨ decode_ascii_ignore (slice 5 (length body - 4) body) = "RELAY 0" ∧ action = "02")
    as Hrelay by (rewrite Hcmd; subst action; destruct on; auto).
  destruct (build_suntech_res_packet_fields now_local dev_id ["CMD"; dev_id; "04"; action]
              (set_timestamp (TDateTime now) cached) (rs_world st) "04" action
              eq_refl eq_refl eq_refl)
    as (fields & Hrun & Hlen & H0 & H1 & H2 & H3 & H4 & H5 & H6 & H7 & _ & Hpt
        & Hascii & Hsplit).
  rewrite (reply_relay_run now now_local dev_id serial body st cached action fields
             Hrelay Hcache Hrun Hpt).
  assert (all_ascii action = true ∧ no_semicolon action = true) as [Hact Hact']
    by (subst action; by destruct on).
  rewrite (Hascii Hid Hst eq_refl Hact).
  cbn [fst snd rs_world rs_out sent].
  split; [reflexivity|]. split; [reflexivity|].
  exists (join ";" fields). rewrite (Hsplit eq_refl Hact' Hsemi). done.
Qed.

Lemma reply_relay_sends_res_witness :
  (handle_reply_command_packet sample_now sample_now sample_dev_id 9 (reply_body "RELAY 1")
     (reply_start located_world)).2 = Ok tt
  ∧ ∃ p, sent (rs_world (handle_reply_command_packet sample_now sample_now sample_dev_id 9
                           (reply_body "RELAY 1") (reply_start located_world)).1)
         = sent (rs_world (reply_start located_world)) ++ [(sample_dev_id, 9, p)]
         ∧ length (split_fields p) = 21%nat
         ∧ split_fields p !! 3%nat = Some "01"
         ∧ split_fields p !! 7%nat = Some "12:01:00".
Proof.
  destruct (reply_relay_sends_res sample_now sample_now sample_dev_id 9
              (reply_body "RELAY 1") (reply_start located_world) _ true
              eq_refl eq_refl eq_refl eq_refl eq_refl)
    as (Hr & _ & p & Hsent & Hlen & _ & _ & _ & H3 & _ & _ & _ & H7).
  split; [exact Hr|]. exists p. split; [exact Hsent|]. split; [exact Hlen|].
  split; [exact H3 | exact H7].
Defined.

(** X17: a reply with a command text for a device that has no cached
    location ends in the handler's error entry, whatever the command, also
    "RELAY 1": nothing is sent and the state of the other handlers is as it
    was. *)
Theorem reply_without_cache_logs_error now now_local dev_id serial body st :
  str_truthy (decode_ascii_ignore (slice 5 (length body - 4) body)) = true →
  redis (rs_world st) !! dev_id ≫= last_location_data = None →
  handle_reply_command_packet now now_local dev_id serial body st
  = (mk_reply_state (rs_world st) (rs_out st ++ [ErrorLogged]), Ok tt).
Proof.
  intros Hcmd Hcache. unfold handle_reply_command_packet. cbv zeta. rewrite Hcmd.
  unfold_MR. unfold hget_last_location_data, liftM. cbn [rs_world rs_out].
  rewrite Hcache. reflexivity.
Qed.

Lemma reply_without_cache_logs_error_witness :
  rs_out (handle_reply_command_packet sample_now sample_now sample_dev_id 9
            (reply_body "RELAY 1") (reply_start empty_world)).1 = [ErrorLogged].
Proof.
  rewrite (reply_without_cache_logs_error sample_now sample_now sample_dev_id 9
             (reply_body "RELAY 1") (reply_start empty_world) eq_refl eq_refl).
  reflexivity.
Defined.

(** X18: a reply whose command text is neither "RELAY 1" nor "RELAY 0",
    for a device with a cached location, is only printed: no packet is
    sent, nothing is logged and the store is as it was. The comparison is
    exact: "relay 1" or "RELAY 1 " are printed too. *)
Theorem reply_other_command_printed now now_local dev_id serial body st cached :
  let command := decode_ascii_ignore (slice 5 (length body - 4) body) in
  str_truthy command = true →
  command ≠ "RELAY 1" → command ≠ "RELAY 0" →
  redis (rs_world st) !! dev_id ≫= last_location_data = Some cached →
  handle_reply_command_packet now now_local dev_id serial body st
  = (mk_reply_state (rs_world st) (rs_out st ++ [Printed command]), Ok tt).
Proof.
  cbv zeta. intros Hcmd Hne1 Hne0 Hcache.
  unfold handle_reply_command_packet. cbv zeta. rewrite Hcmd.
  apply String.eqb_neq in Hne1, Hne0. rewrite Hne1, Hne0.
  unfold_MR. unfold hget_last_location_data, liftM. cbn [rs_world rs_out].
  rewrite Hcache. reflexivity.
Qed.

Lemma reply_other_command_printed_witness :
  rs_out (handle_reply_command_packet sample_now sample_now sample_dev_id 9
            (reply_body "relay 1") (reply_start located_world)).1 = [Printed "relay 1"].
Proof.
  assert ("relay 1" ≠ "RELAY 1") as H1 by discriminate.
  assert ("relay 1" ≠ "RELAY 0") as H0 by discriminate.
  rewrite (reply_other_command_printed sample_now sample_now sample_dev_id 9
             (reply_body "relay 1") (reply_start located_world) _ eq_refl H1 H0 eq_refl).
  reflexivity.
Defined.
